(** * sshm: the SSH connector (package internal/ssh)

    A shallow embedding of the connection and authentication code of
    sshm: [expandPath], the credential collectors ([addSSHAgentAuth],
    [addKeyFileAuth], [addDefaultKeysAuth]), [buildClientConfigWithAuth],
    [buildClientConfig], [Connect], [ConnectWithAuth], [ConnectAndInteract],
    [getTerminalSize], [CheckConnection] and [Ping].

    Go values are modelled as follows.
    - [string] is a byte string; [len], slicing and comparison are the
      ones of [Stdlib.Strings.String].
    - [int] is [Z] (the connector does no arithmetic on it).
    - [error] is an inductive type whose constructors are the ways the
      connector and the libraries it calls build errors; [None : option
      error] is Go's [nil] error.
    - [(T, error)] results are [result T], except where the code
      returns a value together with a non-nil error.
    - a [*ssh.ClientConfig] that a helper mutates through the pointer is
      passed in and returned.
    - the operating system and the libraries (os, os/user, path/filepath,
      net, x/crypto/ssh, x/crypto/ssh/agent) are a record [World] of the
      answers they give.

    Around the connector, the file also embeds the application shell
    ([TUI]), the fields and the port of the host form ([Form]), the host
    store ([Store]) and the host list with its filter ([Listing]). *)

From Stdlib Require Import ZArith List String Ascii Bool Lia DecimalString.
From Stdlib Require Import DecimalPos FMapList FMapFacts OrderedTypeEx.
Import ListNotations.

Local Open Scope list_scope.
Local Open Scope string_scope.

Set Implicit Arguments.

(** ** Errors *)

Inductive error : Type :=
| errorString (msg : string)
    (* fmt.Errorf without %w, or a library error known by its text *)
| wrapError (msg : string) (cause : error)
    (* fmt.Errorf(msg + ": %w", cause) *)
| wrapNil (msg : string)
    (* fmt.Errorf(msg + ": %w", nil) *)
| ExitError (status : Z)
    (* *ssh.ExitError: the remote command left with a non-zero status *)
| ExitMissingError.
    (* *ssh.ExitMissingError: no exit status was sent *)

Inductive result (A : Type) : Type :=
| Ok (a : A)
| Err (e : error).

Arguments Ok {A} a.
Arguments Err {A} e.

(** fmt's %d for an int. *)
Definition itoa (n : Z) : string := NilZero.string_of_int (Z.to_int n).

(** The text of an error, [err.Error()]. *)
Fixpoint Error (e : error) : string :=
  match e with
  | errorString msg => msg
  | wrapError msg cause => msg ++ ": " ++ Error cause
  | wrapNil msg => msg ++ ": %!w(<nil>)"
  | ExitError status => "Process exited with status " ++ itoa status
  | ExitMissingError =>
      "wait: remote command exited without exit status or exit signal"
  end.

(** [strings.Contains s sub]. *)
Definition contains (s sub : string) : bool :=
  match index 0 sub s with
  | Some _ => true
  | None => false
  end.

(** [strings.HasPrefix s prefix]. *)
Definition strings_HasPrefix (s pre : string) : bool :=
  (String.length pre <=? String.length s)%nat
  && String.eqb (substring 0 (String.length pre) s) pre.

(** ** models.Host *)

Record Host : Type := mkHost {
  ID : string;
  Name : string;
  Host_ : string;       (* the field Host *)
  Port : Z;
  User : string;
  Identity : string;
  Proxy : string;
  Tags : list string
}.

(** ** The parts of x/crypto/ssh the connector touches *)

Record Signer : Type := mkSigner { publicKey : string }.

Inductive ssh_AuthMethod : Type :=
| ssh_PublicKeys (signers : list Signer).

(** [ssh.HostKeyCallback]: hostname, remote address, presented key;
    [None] accepts the key. *)
Definition HostKeyCallback : Type := string -> string -> string -> option error.

(** [ssh.InsecureIgnoreHostKey()]. *)
Definition ssh_InsecureIgnoreHostKey : HostKeyCallback :=
  fun _ _ _ => None.

Record ClientConfig : Type := mkClientConfig {
  cfgUser : string;
  Auth : list ssh_AuthMethod;
  HostKeyCallback_ : HostKeyCallback
}.

Record Client : Type := mkClient { clientId : nat }.
Record Session : Type := mkSession { sessionId : nat }.
Record AgentConn : Type := mkAgentConn { agentId : nat }.

(** How a started remote shell ends, as [Session.Wait] sees it. *)
Inductive WaitOutcome : Type :=
| Exited (status : Z)
| NoExitStatus
| IOFailure (e : error).

(** [Session.Wait]: nil when the command exits with status zero, an
    [*ExitError] when it exits with another status, an
    [*ExitMissingError] when no status arrives. *)
Definition session_Wait (o : WaitOutcome) : option error :=
  match o with
  | Exited status => if (status =? 0)%Z then None else Some (ExitError status)
  | NoExitStatus => Some ExitMissingError
  | IOFailure e => Some e
  end.

(** [ssh.TerminalModes], as the list of its entries. *)
Definition TerminalModes : Type := list (Z * Z).
Definition ssh_ECHO : Z := 53.
Definition ssh_TTY_OP_ISPEED : Z := 128.
Definition ssh_TTY_OP_OSPEED : Z := 129.

(** ** The world outside the connector *)

Record World : Type := mkWorld {
  user_Current : result string;                 (* usr.HomeDir *)
  filepath_Join : string -> string -> string;
  os_Getenv : string -> string;                 (* "" when unset *)
  os_ReadFile : string -> result string;
  ssh_ParsePrivateKey : string -> result Signer;
  net_Dial_unix : string -> result AgentConn;
  agent_Signers : AgentConn -> result (list Signer);
  ssh_Dial : string -> ClientConfig -> result Client;      (* network "tcp" *)
  net_Dial_tcp : string -> option error;        (* the conn is only closed *)
  client_NewSession : Client -> result Session;
  session_RequestPty :
    Session -> string -> Z -> Z -> TerminalModes -> option error;
  session_Shell : Session -> option error;
  session_outcome : Session -> WaitOutcome
}.

(** ** strconv.Atoi (64-bit int) *)

Definition is_digit (ch : ascii) : bool :=
  (48 <=? nat_of_ascii ch)%nat && (nat_of_ascii ch <=? 57)%nat.

Fixpoint digits_value (n : Z) (s : string) : option Z :=
  match s with
  | EmptyString => Some n
  | String ch rest =>
      if is_digit ch
      then digits_value (n * 10 + (Z.of_nat (nat_of_ascii ch) - 48))%Z rest
      else None
  end.

Definition min_int : Z := (- 2 ^ 63)%Z.
Definition max_int : Z := (2 ^ 63 - 1)%Z.

Definition strconv_Atoi (s : string) : option Z :=
  match s with
  | EmptyString => None
  | String ch rest =>
      let neg := Ascii.eqb ch "-" in
      let body := if neg || Ascii.eqb ch "+" then rest else s in
      match body with
      | EmptyString => None
      | _ =>
          match digits_value 0 body with
          | None => None
          | Some n =>
              let v := if neg then (- n)%Z else n in
              if (min_int <=? v)%Z && (v <=? max_int)%Z then Some v else None
          end
      end
  end.

(** ** The connector *)

(** [type AuthMethod int] and its constants. *)
Definition AuthMethod : Type := Z.
Definition AuthMethodNone : AuthMethod := 0%Z.
Definition AuthMethodPassword : AuthMethod := 1%Z.
Definition AuthMethodKeyFile : AuthMethod := 2%Z.
Definition AuthMethodSSHAgent : AuthMethod := 3%Z.

Record Connector : Type := mkConnector {
  client : option Client;
  config : option ClientConfig
}.

Definition NewConnector : Connector := mkConnector None None.

Definition IsConnected (c : Connector) : bool :=
  match client c with
  | Some _ => true
  | None => false
  end.

Definition defaultKeys : list string :=
  [ "~/.ssh/id_ed25519"; "~/.ssh/id_rsa"; "~/.ssh/id_ecdsa"; "~/.ssh/id_dsa" ].

(** The terminal modes [ConnectAndInteract] asks for. *)
Definition modes : TerminalModes :=
  [ (ssh_ECHO, 1%Z); (ssh_TTY_OP_ISPEED, 14400%Z);
    (ssh_TTY_OP_OSPEED, 14400%Z) ].

(** [fmt.Sprintf("%s:%d", host, port)]. *)
Definition Sprintf_addr (host : string) (port : Z) : string :=
  host ++ ":" ++ itoa port.

Section WithWorld.

Variable w : World.

Definition expandPath (path : string) : result string :=
  if (1 <? String.length path)%nat && String.eqb (substring 0 2 path) "~/" then
    match user_Current w with
    | Err err => Err err
    | Ok homeDir =>
        Ok (filepath_Join w homeDir (substring 2 (String.length path - 2) path))
    end
  else Ok path.

Definition addSSHAgentAuth (config : ClientConfig)
  : ClientConfig * option error :=
  let socket := os_Getenv w "SSH_AUTH_SOCK" in
  if String.eqb socket "" then
    (config, Some (errorString "SSH_AUTH_SOCK not set"))
  else
    match net_Dial_unix w socket with
    | Err err =>
        (config, Some (wrapError "failed to connect to SSH agent" err))
    | Ok conn =>
        match agent_Signers w conn with
        | Err err =>
            (config, Some (wrapError "no keys available from SSH agent" err))
        | Ok [] =>
            (config, Some (wrapNil "no keys available from SSH agent"))
        | Ok signers =>
            (mkClientConfig (cfgUser config)
               (Auth config ++ [ssh_PublicKeys signers])
               (HostKeyCallback_ config), None)
        end
    end.

Definition addKeyFileAuth (config : ClientConfig) (keyPath : string)
  : ClientConfig * option error :=
  match expandPath keyPath with
  | Err err => (config, Some (wrapError "failed to expand identity path" err))
  | Ok expandedPath =>
      match os_ReadFile w expandedPath with
      | Err err => (config, Some (wrapError "failed to read identity file" err))
      | Ok key =>
          match ssh_ParsePrivateKey w key with
          | Err err =>
              (config, Some (wrapError "failed to parse private key" err))
          | Ok signer =>
              (mkClientConfig (cfgUser config)
                 (Auth config ++ [ssh_PublicKeys [signer]])
                 (HostKeyCallback_ config), None)
          end
      end
  end.

(** One turn of the loop over the default keys; each [continue] leaves
    the configuration as it was. *)
Definition defaultKeys_body (config : ClientConfig) (keyPath : string)
  : ClientConfig :=
  match expandPath keyPath with
  | Err _ => config
  | Ok expandedPath =>
      match os_ReadFile w expandedPath with
      | Err _ => config
      | Ok key =>
          match ssh_ParsePrivateKey w key with
          | Err _ => config
          | Ok signer =>
              mkClientConfig (cfgUser config)
                (Auth config ++ [ssh_PublicKeys [signer]])
                (HostKeyCallback_ config)
          end
      end
  end.

(** The loop of [addDefaultKeysAuth] over a list of key paths. *)
Definition defaultKeys_loop (keys : list string) (config : ClientConfig)
  : ClientConfig :=
  fold_left defaultKeys_body keys config.

(** The body of [addDefaultKeysAuth] for a given key list. *)
Definition addKeysAuth (keys : list string) (config : ClientConfig)
  : ClientConfig * option error :=
  let config := defaultKeys_loop keys config in
  if (List.length (Auth config) =? 0)%nat then
    (config, Some (errorString "no authentication method available"))
  else (config, None).

Definition addDefaultKeysAuth (config : ClientConfig)
  : ClientConfig * option error :=
  addKeysAuth defaultKeys config.

(** Returns the Go pair of a configuration pointer and an error: the
    password case returns the configuration together with an error.
    [finish] is the code after the switch. *)
Definition buildClientConfigWithAuth (host : Host) (auth : AuthMethod)
  : option ClientConfig * option error :=
  let config := mkClientConfig (User host) [] ssh_InsecureIgnoreHostKey in
  let finish (config : ClientConfig) :=
    if (List.length (Auth config) =? 0)%nat then
      (None, Some (errorString "no authentication method available"))
    else (Some config, None) in
  if (auth =? AuthMethodPassword)%Z then
    (Some config, Some (errorString "password authentication not implemented"))
  else if (auth =? AuthMethodSSHAgent)%Z then
    match addSSHAgentAuth config with
    | (_, Some err) => (None, Some err)
    | (config, None) => finish config
    end
  else if (auth =? AuthMethodKeyFile)%Z || (auth =? AuthMethodNone)%Z then
    if negb (String.eqb (Identity host) "") then
      match addKeyFileAuth config (Identity host) with
      | (_, Some err) => (None, Some err)
      | (config, None) => finish config
      end
    else
      match addDefaultKeysAuth config with
      | (_, Some err) => (None, Some err)
      | (config, None) => finish config
      end
  else finish config.

(** The loop of [buildClientConfig] over the methods still to try. *)
Fixpoint buildClientConfig_loop (host : Host) (methods : list AuthMethod)
  : result ClientConfig :=
  match methods with
  | [] => Err (errorString "no authentication method available")
  | method :: rest =>
      match buildClientConfigWithAuth host method with
      | (Some config, None) =>
          if (0 <? List.length (Auth config))%nat then Ok config
          else buildClientConfig_loop host rest
      | _ => buildClientConfig_loop host rest
      end
  end.

Definition buildClientConfig (host : Host) : result ClientConfig :=
  buildClientConfig_loop host [AuthMethodSSHAgent; AuthMethodKeyFile].

(** The dial and the two assignments shared by [Connect] and
    [ConnectWithAuth]. *)
Definition dialWith (c : Connector) (host : Host) (config : ClientConfig)
  : Connector * option error :=
  let addr := Sprintf_addr (Host_ host) (Port host) in
  match ssh_Dial w addr config with
  | Err err => (c, Some (wrapError ("failed to connect to " ++ addr) err))
  | Ok client => (mkConnector (Some client) (Some config), None)
  end.

Definition Connect (c : Connector) (host : Host) : Connector * option error :=
  match buildClientConfig host with
  | Err err => (c, Some (wrapError "failed to build client config" err))
  | Ok config => dialWith c host config
  end.

Definition ConnectWithAuth (c : Connector) (host : Host) (auth : AuthMethod)
  : Connector * option error :=
  match buildClientConfigWithAuth host auth with
  | (_, Some err) => (c, Some (wrapError "failed to build client config" err))
  | (None, None) => (c, None)      (* not reached: see [withAuth_some] *)
  | (Some config, None) => dialWith c host config
  end.

Definition getTerminalSizeImpl : Z * Z * option error :=
  let w_ := os_Getenv w "COLUMNS" in
  let fallback := (80%Z, 24%Z, @None error) in
  if negb (String.eqb w_ "") then
    let h := os_Getenv w "LINES" in
    if negb (String.eqb h "") then
      match strconv_Atoi w_, strconv_Atoi h with
      | Some width, Some height => (width, height, None)
      | _, _ => fallback
      end
    else fallback
  else fallback.

Definition getTerminalSize : Z * Z :=
  match getTerminalSizeImpl with
  | (_, _, Some _) => (80%Z, 24%Z)
  | (width, height, None) => (width, height)
  end.

(** The function returns an [error] and nothing else. The two deferred
    [Close] calls run on every return path; their results are dropped,
    so they do not show in the value returned. *)
Definition ConnectAndInteract (host : Host) : option error :=
  let connector := NewConnector in
  match Connect connector host with
  | (_, Some err) => Some err
  | (connector, None) =>
      match client connector with
      | None => None                 (* not reached: Connect set the client *)
      | Some cl =>
          match client_NewSession w cl with
          | Err err => Some (wrapError "failed to create session" err)
          | Ok session =>
              let (width, height) := getTerminalSize in
              match session_RequestPty w session "xterm" height width modes with
              | Some err =>
                  Some (wrapError "request for pseudo terminal failed" err)
              | None =>
                  match session_Shell w session with
                  | Some err => Some (wrapError "failed to start shell" err)
                  | None => session_Wait (session_outcome w session)
                  end
              end
          end
      end
  end.

Definition CheckConnection (host : Host) : option error :=
  let addr := Sprintf_addr (Host_ host) (Port host) in
  match net_Dial_tcp w addr with
  | Some err => Some (wrapError ("cannot reach " ++ addr) err)
  | None => None
  end.

(** [net.DialTimeout] with its five seconds is the same oracle as
    [net.Dial]: a timeout is one of the errors it may answer. *)
Definition Ping (host : string) (port : Z) : option error :=
  let addr := Sprintf_addr host port in
  net_Dial_tcp w addr.

End WithWorld.

(** ** The host form (internal/tui/edit.go)

    The port stored by [save] for the text of the port field. [validate]
    has turned down a field that [strconv.Atoi] rejects, in which case
    nothing is saved. *)
Definition EditView_save_port (field : string) : option Z :=
  match strconv_Atoi field with
  | None => None
  | Some port => Some (if (port =? 0)%Z then 22%Z else port)
  end.

(** ** The earlier connector

    The repository holds a second, earlier copy of the connector. Its
    [expandPath], [Connect], [ConnectAndInteract] and [CheckConnection]
    read like the ones above; its [buildClientConfig] has no agent step
    and surfaces the errors of a configured identity file itself. *)

Module Legacy.

Section WithWorld.

Variable w : World.

Definition buildClientConfig (host : Host) : result ClientConfig :=
  let config := mkClientConfig (User host) [] ssh_InsecureIgnoreHostKey in
  let finish (config : ClientConfig) :=
    if (List.length (Auth config) =? 0)%nat then
      Err (errorString "no authentication method available")
    else Ok config in
  if negb (String.eqb (Identity host) "") then
    match expandPath w (Identity host) with
    | Err err => Err (wrapError "failed to expand identity path" err)
    | Ok keyPath =>
        match os_ReadFile w keyPath with
        | Err err => Err (wrapError "failed to read identity file" err)
        | Ok key =>
            match ssh_ParsePrivateKey w key with
            | Err err => Err (wrapError "failed to parse private key" err)
            | Ok signer =>
                finish (mkClientConfig (cfgUser config)
                          (Auth config ++ [ssh_PublicKeys [signer]])
                          (HostKeyCallback_ config))
            end
        end
    end
  else
    finish (fold_left (defaultKeys_body w) defaultKeys config).

Definition Connect (c : Connector) (host : Host) : Connector * option error :=
  match buildClientConfig host with
  | Err err => (c, Some (wrapError "failed to build client config" err))
  | Ok config => dialWith w c host config
  end.

End WithWorld.

End Legacy.

(** ** Credential sources, read off the world

    What each source would give if asked, stated without the
    configuration being built: used to phrase the properties of the
    resolver. *)

(** The signer a key path yields: expand, read, parse. *)
Definition load_signer (w : World) (keyPath : string) : option Signer :=
  match expandPath w keyPath with
  | Err _ => None
  | Ok expandedPath =>
      match os_ReadFile w expandedPath with
      | Err _ => None
      | Ok key =>
          match ssh_ParsePrivateKey w key with
          | Err _ => None
          | Ok signer => Some signer
          end
      end
  end.

(** The signers the agent named by SSH_AUTH_SOCK yields. *)
Definition agent_signers (w : World) : list Signer :=
  if String.eqb (os_Getenv w "SSH_AUTH_SOCK") "" then []
  else
    match net_Dial_unix w (os_Getenv w "SSH_AUTH_SOCK") with
    | Err _ => []
    | Ok conn =>
        match agent_Signers w conn with
        | Err _ => []
        | Ok signers => signers
        end
    end.

(** The signer of the configured identity file, when one is configured. *)
Definition identity_signer (w : World) (host : Host) : option Signer :=
  if String.eqb (Identity host) "" then None
  else load_signer w (Identity host).

(** The signers of the default key files, in list order. *)
Fixpoint loaded_signers (w : World) (keys : list string) : list Signer :=
  match keys with
  | [] => []
  | keyPath :: rest =>
      match load_signer w keyPath with
      | Some signer => signer :: loaded_signers w rest
      | None => loaded_signers w rest
      end
  end.

Definition publicKey_auth (signer : Signer) : ssh_AuthMethod :=
  ssh_PublicKeys [signer].

(** ** Sample worlds and hosts *)

Module Sample.

Definition ENOENT : error := errorString "no such file or directory".
Definition ECONNREFUSED : error := errorString "connect: connection refused".
Definition noKey : error := errorString "ssh: no key found".

Definition adminKey : Signer := mkSigner "ssh-ed25519 AAAA admin".
Definition rsaKey : Signer := mkSigner "ssh-rsa BBBB admin".

(** No agent, no readable key file, a server that accepts the dial and
    whose shell leaves with status 0. *)
Definition bare : World := {|
  user_Current := Ok "/home/admin";
  filepath_Join := fun dir rest => (dir ++ "/" ++ rest)%string;
  os_Getenv := fun _ => "";
  os_ReadFile := fun _ => Err ENOENT;
  ssh_ParsePrivateKey := fun _ => Err noKey;
  net_Dial_unix := fun _ => Err ECONNREFUSED;
  agent_Signers := fun _ => Ok [];
  ssh_Dial := fun _ _ => Ok (mkClient 1);
  net_Dial_tcp := fun _ => None;
  client_NewSession := fun _ => Ok (mkSession 1);
  session_RequestPty := fun _ _ _ _ _ => None;
  session_Shell := fun _ => None;
  session_outcome := fun _ => Exited 0
|}.

(** [bare] with environment variables, files, agent keys, a dial answer
    and a shell outcome of one's choosing. *)
Definition world (env : list (string * string))
    (files : list (string * string)) (agentKeys : list Signer)
    (dial : string -> result Client) (outcome : WaitOutcome) : World := {|
  user_Current := Ok "/home/admin";
  filepath_Join := fun dir rest => (dir ++ "/" ++ rest)%string;
  os_Getenv := fun name =>
    match find (fun kv => String.eqb (fst kv) name) env with
    | Some kv => snd kv
    | None => ""
    end;
  os_ReadFile := fun path =>
    match find (fun kv => String.eqb (fst kv) path) files with
    | Some kv => Ok (snd kv)
    | None => Err ENOENT
    end;
  ssh_ParsePrivateKey := fun key =>
    if prefix "KEY " key
    then Ok (mkSigner (substring 4 (String.length key - 4) key))
    else Err noKey;
  net_Dial_unix := fun socket =>
    if String.eqb socket "/run/agent.sock" then Ok (mkAgentConn 1)
    else Err ECONNREFUSED;
  agent_Signers := fun _ => Ok agentKeys;
  ssh_Dial := fun addr _ => dial addr;
  net_Dial_tcp := fun addr =>
    match dial addr with Ok _ => None | Err e => Some e end;
  client_NewSession := fun _ => Ok (mkSession 1);
  session_RequestPty := fun _ _ _ _ _ => None;
  session_Shell := fun _ => None;
  session_outcome := fun _ => outcome
|}.

Definition anyDial : string -> result Client := fun _ => Ok (mkClient 1).

(** A server that listens on port 22 only. *)
Definition sshdOnly (addr : string) : result Client :=
  if String.eqb addr "203.0.113.5:22" then Ok (mkClient 1)
  else Err ECONNREFUSED.

(** A server that cannot be reached. *)
Definition refuse : string -> result Client := fun _ => Err ECONNREFUSED.

(** A server that is reached and turns every offered key down. *)
Definition handshakeFailed : error :=
  errorString "ssh: handshake failed: ssh: unable to authenticate, attempted methods [none publickey], no supported methods remain".
Definition rejectAuth : string -> result Client :=
  fun _ => Err handshakeFailed.

Definition admin : Host :=
  mkHost "h1" "production" "203.0.113.5" 22 "admin" "" "" [].

Definition adminNoPort : Host :=
  mkHost "h1" "production" "203.0.113.5" 0 "admin" "" "" [].

Definition adminPinned : Host :=
  mkHost "h1" "production" "203.0.113.5" 22 "admin" "/keys/missing" "" [].

Definition withAgent : list (string * string) :=
  [("SSH_AUTH_SOCK", "/run/agent.sock")].

Definition rsaFile : list (string * string) :=
  [("/home/admin/.ssh/id_rsa", "KEY ssh-rsa BBBB admin")].

End Sample.

(** ** The rest of the connector *)

Definition GetClient (c : Connector) : option Client := client c.

(** What the connector and a session hold and give back. *)
Inductive Event : Type :=
| ClientOpened (cl : Client)
| SessionOpened (session : Session)
| SessionClosed (session : Session)
| ClientClosed (cl : Client).

(** [Close], as the call it makes: the client is closed when there is
    one. The connector itself is not assigned to. *)
Definition Close_events (c : Connector) : list Event :=
  match client c with
  | Some cl => [ClientClosed cl]
  | None => []
  end.

(** [ConnectAndInteract] with its two deferred calls: next to the error
    returned, the clients and sessions opened and closed, in order. A
    deferred call runs when the function returns, the later one first. *)
Definition ConnectAndInteract_events (w : World) (host : Host)
  : list Event * option error :=
  let connector := NewConnector in
  match Connect w connector host with
  | (connector, Some err) => (Close_events connector, Some err)
  | (connector, None) =>
      match client connector with
      | None => (Close_events connector, None)
      | Some cl =>
          match client_NewSession w cl with
          | Err err =>
              (ClientOpened cl :: Close_events connector,
               Some (wrapError "failed to create session" err))
          | Ok session =>
              let deferred := SessionClosed session :: Close_events connector in
              let opened := [ClientOpened cl; SessionOpened session] in
              let (width, height) := getTerminalSize w in
              match session_RequestPty w session "xterm" height width modes with
              | Some err =>
                  ((opened ++ deferred)%list,
                   Some (wrapError "request for pseudo terminal failed" err))
              | None =>
                  match session_Shell w session with
                  | Some err =>
                      ((opened ++ deferred)%list,
                       Some (wrapError "failed to start shell" err))
                  | None =>
                      ((opened ++ deferred)%list,
                       session_Wait (session_outcome w session))
                  end
              end
          end
      end
  end.

(** The step at which loading an identity file failed, with its cause. *)
Definition identity_step_error (w : World) (keyPath : string) (e : error)
  : Prop :=
  (exists cause,
      expandPath w keyPath = Err cause /\
      e = wrapError "failed to expand identity path" cause) \/
  (exists expandedPath cause,
      expandPath w keyPath = Ok expandedPath /\
      os_ReadFile w expandedPath = Err cause /\
      e = wrapError "failed to read identity file" cause) \/
  (exists expandedPath key cause,
      expandPath w keyPath = Ok expandedPath /\
      os_ReadFile w expandedPath = Ok key /\
      ssh_ParsePrivateKey w key = Err cause /\
      e = wrapError "failed to parse private key" cause).

(** ** The application shell (internal/tui, App)

    A message is a key press, known by the text of the key, a change of
    window size, or something else. The model is the view name, the
    quitting flag and the error; the store and the list view are pointers
    that [Update] never assigns. *)

Module TUI.

Inductive Msg : Type :=
| KeyMsg (key : string)
| WindowSizeMsg (width height : Z)
| OtherMsg.

Inductive Cmd : Type :=
| Quit.

Record App : Type := mkApp {
  view : string;
  quitting : bool;
  err : option error
}.

Definition New : App := mkApp "list" false None.

Definition handleKeyMsg (m : App) (key : string) : App * option Cmd :=
  if String.eqb key "q" || String.eqb key "ctrl+c" then
    (mkApp (view m) true (err m), Some Quit)
  else if String.eqb key "a" then (mkApp "add" (quitting m) (err m), None)
  else if String.eqb key "e" then (mkApp "edit" (quitting m) (err m), None)
  else if String.eqb key "d" then (mkApp "detail" (quitting m) (err m), None)
  else if String.eqb key "esc" then (mkApp "list" (quitting m) (err m), None)
  else (m, None).

Definition Update (m : App) (msg : Msg) : App * option Cmd :=
  match msg with
  | KeyMsg key => handleKeyMsg m key
  | WindowSizeMsg _ _ => (m, None)
  | OtherMsg => (m, None)
  end.

(** The render function [View] calls; the styling itself is left out. *)
Inductive Screen : Type :=
| ErrorScreen (text : string)
| ListScreen
| AddScreen
| EditScreen
| DetailScreen.

Definition View (m : App) : Screen :=
  match err m with
  | Some e => ErrorScreen ("Error: " ++ Error e)
  | None =>
      if String.eqb (view m) "list" then ListScreen
      else if String.eqb (view m) "add" then AddScreen
      else if String.eqb (view m) "edit" then EditScreen
      else if String.eqb (view m) "detail" then DetailScreen
      else ListScreen
  end.

(** The program loop: each message goes through [Update], the model
    returned is the one the next message meets. *)
Definition run (m : App) (msgs : list Msg) : App :=
  fold_left (fun m msg => fst (Update m msg)) msgs m.

End TUI.

(** ** The host form (internal/tui/edit.go), its fields *)

Module Form.

Definition fieldName : string := "name".
Definition fieldHost : string := "host".
Definition fieldPort : string := "port".
Definition fieldUser : string := "user".
Definition fieldIdentity : string := "identity".
Definition fieldProxy : string := "proxy".
Definition fieldGroup : string := "group".

Definition fields : list string :=
  [fieldName; fieldHost; fieldPort; fieldUser; fieldIdentity; fieldProxy;
   fieldGroup].

(** The loop shared by [prevField] and [nextField]: at the first index
    [i] whose field is the current one, move to the field at [step i] and
    stop; with no such index the field stays. *)
Fixpoint field_loop (step : Z -> Z) (field : string) (i : Z)
    (rest : list string) : string :=
  match rest with
  | [] => field
  | f :: rest' =>
      if String.eqb field f then nth (Z.to_nat (step i)) fields ""
      else field_loop step field (i + 1)%Z rest'
  end.

Definition prevField (field : string) : string :=
  let len := Z.of_nat (List.length fields) in
  field_loop (fun i => Z.rem (i - 1 + len) len) field 0%Z fields.

Definition nextField (field : string) : string :=
  let len := Z.of_nat (List.length fields) in
  field_loop (fun i => Z.rem (i + 1) len) field 0%Z fields.

(** [validate]: the new errors map, as the list of its entries. [values]
    is the map of the field texts; a field never typed into reads as the
    empty text. *)
Definition validate (values : string -> string) : list (string * string) :=
  ((if String.eqb (values fieldName) "" then [(fieldName, "Name is required")]
    else []) ++
   (if String.eqb (values fieldHost) "" then [(fieldHost, "Host is required")]
    else []) ++
   (if String.eqb (values fieldPort) "" then [(fieldPort, "Port is required")]
    else match strconv_Atoi (values fieldPort) with
         | None => [(fieldPort, "Port must be a number")]
         | Some _ => []
         end) ++
   (if String.eqb (values fieldUser) "" then [(fieldUser, "User is required")]
    else []))%list.

(** The port [save] puts in the record, when [validate] let it through. *)
Definition save_port (values : string -> string) : option Z :=
  if (0 <? List.length (validate values))%nat then None
  else EditView_save_port (values fieldPort).

End Form.

(** ** The host store (internal/store, FileStore)

    The map from identifiers to hosts is a finite map with string keys.
    The store calls the file system, the JSON coder and the identifier
    generator; their answers are the record [Disk] and, for [AddHost],
    the identifier the generator returns. The functions take the store
    and return it, as they work through a pointer. *)

Module HostMap := FMapList.Make String_as_OT.
Module HostMapFacts := FMapFacts.WFacts_fun String_as_OT HostMap.
Module HostMapProps := FMapFacts.WProperties_fun String_as_OT HostMap.

Module Store.

Definition ErrHostNotFound : error := errorString "host not found".
Definition ErrHostExists : error := errorString "host already exists".

Record FileStore : Type := mkFileStore {
  path : string;
  hosts : HostMap.t Host
}.

(** What reading the storage file gives. *)
Inductive ReadResult : Type :=
| NotExist
| ReadError (e : error)
| Content (data : string).

Record Disk : Type := mkDisk {
  os_ReadFile : string -> ReadResult;
  json_Unmarshal : string -> result (list Host);
  json_MarshalIndent : list Host -> result string;
  os_WriteFile : string -> string -> option error
}.

(** The hosts of the map, in the order of the keys; the order Go walks
    a map in is not fixed. *)
Definition ListHosts (s : FileStore) : list Host :=
  map snd (HostMap.elements (hosts s)).

Definition Count (s : FileStore) : nat := HostMap.cardinal (hosts s).

Definition GetHost (s : FileStore) (id : string) : result Host :=
  match HostMap.find id (hosts s) with
  | None => Err ErrHostNotFound
  | Some host => Ok host
  end.

Section WithDisk.

Variable d : Disk.

Definition save (s : FileStore) : option error :=
  match json_MarshalIndent d (ListHosts s) with
  | Err err => Some (wrapError "failed to marshal hosts" err)
  | Ok data =>
      match os_WriteFile d (path s) data with
      | Some err => Some (wrapError "failed to write store" err)
      | None => None
      end
  end.

Definition load (s : FileStore) : FileStore * option error :=
  match os_ReadFile d (path s) with
  | NotExist => (s, None)
  | ReadError err => (s, Some (wrapError "failed to read store" err))
  | Content data =>
      match json_Unmarshal d data with
      | Err err => (s, Some (wrapError "failed to parse store data" err))
      | Ok hostList =>
          (mkFileStore (path s)
             (fold_left (fun m host => HostMap.add (ID host) host m) hostList
                (HostMap.empty Host)), None)
      end
  end.

Definition NewFileStore (path : string) : FileStore :=
  fst (load (mkFileStore path (HostMap.empty Host))).

Definition AddHost (s : FileStore) (host : Host) (uuid : string)
  : FileStore * option error :=
  let host :=
    if String.eqb (ID host) "" then
      mkHost uuid (Name host) (Host_ host) (Port host) (User host)
        (Identity host) (Proxy host) (Tags host)
    else host in
  if HostMap.mem (ID host) (hosts s) then (s, Some ErrHostExists)
  else
    let s := mkFileStore (path s) (HostMap.add (ID host) host (hosts s)) in
    (s, save s).

Definition UpdateHost (s : FileStore) (host : Host)
  : FileStore * option error :=
  if String.eqb (ID host) "" then
    (s, Some (errorString "host ID is required for update"))
  else if negb (HostMap.mem (ID host) (hosts s)) then (s, Some ErrHostNotFound)
  else
    let s := mkFileStore (path s) (HostMap.add (ID host) host (hosts s)) in
    (s, save s).

Definition DeleteHost (s : FileStore) (id : string)
  : FileStore * option error :=
  if negb (HostMap.mem id (hosts s)) then (s, Some ErrHostNotFound)
  else
    let s := mkFileStore (path s) (HostMap.remove id (hosts s)) in
    (s, save s).

End WithDisk.

(** Every host sits under its own identifier. *)
Definition keyed_by_ID (s : FileStore) : Prop :=
  forall id host, HostMap.find id (hosts s) = Some host -> ID host = id.

(** A disk that holds nothing and takes every write. *)
Definition blank : Disk := {|
  os_ReadFile := fun _ => NotExist;
  json_Unmarshal := fun _ => Ok [];
  json_MarshalIndent := fun _ => Ok "[]";
  os_WriteFile := fun _ _ => None
|}.

(** A disk that refuses every write. *)
Definition readOnly : Disk := {|
  os_ReadFile := fun _ => NotExist;
  json_Unmarshal := fun _ => Ok [];
  json_MarshalIndent := fun _ => Ok "[]";
  os_WriteFile := fun _ _ => Some (errorString "read-only file system")
|}.

End Store.

(** ** The host list (internal/tui, ListView, the view with a filter)

    [strings.ToLower] is taken as it comes; nothing below depends on
    what it does. The store pointer is left out: [Refresh] is given the
    list the store returns. Indexing a slice outside its bounds panics. *)

Module Listing.

Record ListView : Type := mkListView {
  hosts : list Host;
  filtered : list Host;
  selected : Z;
  filterText : string;
  cursor : Z;
  filtering : bool;
  height : Z;
  width : Z
}.

(** The line feed that ends the text printed. *)
Definition newline : string := String (ascii_of_nat 10) "".

(** [len(v.filtered)]. *)
Definition len (l : list Host) : Z := Z.of_nat (List.length l).

(** [l[i]], or nothing where Go panics. *)
Definition at_index (l : list Host) (i : Z) : option Host :=
  if (i <? 0)%Z then None else nth_error l (Z.to_nat i).

(** What a call leaves behind: the view, the command and the text
    printed, or a run-time panic. *)
Inductive Outcome : Type :=
| Done (v : ListView) (cmd : option TUI.Cmd) (printed : option string)
| Panic.


Definition NewListView (storeHosts : list Host) : ListView :=
  mkListView storeHosts storeHosts 0 "" 0 false 0 0.

Definition with_cursor (v : ListView) (c : Z) : ListView :=
  mkListView (hosts v) (filtered v) (selected v) (filterText v) c
    (filtering v) (height v) (width v).

Section WithToLower.

Variable strings_ToLower : string -> string.

Definition stringsContainsAny (tags : list string) (query : string) : bool :=
  existsb (fun tag => contains (strings_ToLower tag) query) tags.

Definition updateFiltered (v : ListView) : ListView :=
  if String.eqb (filterText v) "" then
    mkListView (hosts v) (hosts v) (selected v) (filterText v) (cursor v)
      (filtering v) (height v) (width v)
  else
    let lowerFilter := strings_ToLower (filterText v) in
    mkListView (hosts v)
      (filter (fun h =>
                 contains (strings_ToLower (Name h)) lowerFilter
                 || contains (strings_ToLower (Host_ h)) lowerFilter
                 || contains (strings_ToLower (User h)) lowerFilter
                 || stringsContainsAny (Tags h) lowerFilter) (hosts v))
      (selected v) (filterText v) (cursor v) (filtering v) (height v)
      (width v).

Definition handleKey (v : ListView) (key : string) : Outcome :=
  if filtering v then
    if String.eqb key "esc" then
      let v := updateFiltered
                 (mkListView (hosts v) (filtered v) (selected v) "" (cursor v)
                    false (height v) (width v)) in
      Done (with_cursor v 0) None None
    else if String.eqb key "enter" then
      Done (mkListView (hosts v) (filtered v) (selected v) (filterText v)
              (cursor v) false (height v) (width v)) None None
    else if String.eqb key "backspace" then
      if (0 <? String.length (filterText v))%nat then
        let v := updateFiltered
                   (mkListView (hosts v) (filtered v) (selected v)
                      (substring 0 (String.length (filterText v) - 1)
                         (filterText v))
                      (cursor v) (filtering v) (height v) (width v)) in
        if (len (filtered v) <=? cursor v)%Z then
          Done (with_cursor v (Z.max 0 (len (filtered v) - 1))) None None
        else Done v None None
      else Done v None None
    else if (String.length key =? 1)%nat then
      let v := updateFiltered
                 (mkListView (hosts v) (filtered v) (selected v)
                    (filterText v ++ key) (cursor v) (filtering v)
                    (height v) (width v)) in
      Done (with_cursor v 0) None None
    else Done v None None
  else if String.eqb key "up" || String.eqb key "k" then
    if (0 <? cursor v)%Z then Done (with_cursor v (cursor v - 1)) None None
    else Done v None None
  else if String.eqb key "down" || String.eqb key "j" then
    if (cursor v <? len (filtered v) - 1)%Z then
      Done (with_cursor v (cursor v + 1)) None None
    else Done v None None
  else if String.eqb key "home" || String.eqb key "g" then
    Done (with_cursor v 0) None None
  else if String.eqb key "end" || String.eqb key "G" then
    Done (with_cursor v (Z.max 0 (len (filtered v) - 1))) None None
  else if String.eqb key "pageup" then
    Done (with_cursor v (Z.max 0 (cursor v - 5))) None None
  else if String.eqb key "pagedown" then
    Done (with_cursor v (Z.min (len (filtered v) - 1) (cursor v + 5))) None None
  else if String.eqb key "/" then
    Done (mkListView (hosts v) (filtered v) (selected v) "" (cursor v) true
            (height v) (width v)) None None
  else if String.eqb key "enter" then
    if (0 <? len (filtered v))%Z && (cursor v <? len (filtered v))%Z then
      match at_index (filtered v) (cursor v) with
      | None => Panic
      | Some h => Done v None (Some ("Selected host: " ++ Name h ++ newline))
      end
    else Done v None None
  else if String.eqb key "q" || String.eqb key "ctrl+c" then
    Done v (Some TUI.Quit) None
  else Done v None None.


End WithToLower.


(** The cursor points into the list shown, or is 0 when the list is
    empty. *)
Definition cursor_in_bounds (v : ListView) : Prop :=
  (0 <= cursor v <= Z.max 0 (len (filtered v) - 1))%Z.

End Listing.

(** ** Vocabulary of the properties *)

(** The error of a resolver that found no signer. *)
Definition authExhausted : error :=
  errorString "no authentication method available".

(** A configuration accepts any host key when its callback returns nil
    for every host name, remote address and presented key. *)
Definition accepts_any_host_key (config : ClientConfig) : Prop :=
  forall hostname remote key, HostKeyCallback_ config hostname remote key = None.

(** The resolver reports exhaustion. *)
Definition exhausted (w : World) (host : Host) : Prop :=
  exists err, buildClientConfig w host = Err err.

(** No source yields a signer: not the agent, not the identity file,
    not one of the default key paths. *)
Definition no_source_yields (w : World) (host : Host) : Prop :=
  agent_signers w = [] /\
  identity_signer w host = None /\
  forall keyPath, In keyPath defaultKeys -> load_signer w keyPath = None.

(** The sources the resolver consults: the agent, then the identity file
    when the host names one, the default key paths when it names none. *)
Definition no_consulted_source_yields (w : World) (host : Host) : Prop :=
  agent_signers w = [] /\
  if String.eqb (Identity host) "" then
    forall keyPath, In keyPath defaultKeys -> load_signer w keyPath = None
  else load_signer w (Identity host) = None.

(** * Properties *)

(** ** expandPath *)

Lemma substring_0_0 (s : string) : substring 0 0 s = "".
Proof. destruct s; reflexivity. Qed.

Lemma substring_all (s : string) : substring 0 (String.length s) s = s.
Proof. induction s as [|a s IH]; simpl; [reflexivity | now rewrite IH]. Qed.

(** The guard of [expandPath] is the test "starts with ~/". *)
Lemma expandPath_guard (path : string) :
  (1 <? String.length path)%nat && String.eqb (substring 0 2 path) "~/"
  = strings_HasPrefix path "~/".
Proof. reflexivity. Qed.

Lemma HasPrefix_tilde_length (path : string) :
  strings_HasPrefix path "~/" = true -> (1 < String.length path)%nat.
Proof.
  unfold strings_HasPrefix. intros H.
  apply andb_true_iff in H. destruct H as [H _].
  apply Nat.leb_le in H. simpl in H. lia.
Qed.

Lemma expandPath_tilde (w : World) (rest : string) :
  expandPath w ("~/" ++ rest) =
  match user_Current w with
  | Ok homeDir => Ok (filepath_Join w homeDir rest)
  | Err err => Err err
  end.
Proof.
  unfold expandPath. cbn. rewrite substring_0_0. cbn.
  rewrite Nat.sub_0_r, substring_all. reflexivity.
Qed.

Lemma expandPath_other (w : World) (path : string) :
  strings_HasPrefix path "~/" = false -> expandPath w path = Ok path.
Proof.
  intros H. unfold expandPath. rewrite expandPath_guard, H. reflexivity.
Qed.

Lemma HasPrefix_tilde_split (path : string) :
  strings_HasPrefix path "~/" = true ->
  path = "~/" ++ substring 2 (String.length path - 2) path.
Proof.
  unfold strings_HasPrefix.
  destruct path as [|a [|b rest]]; cbn; try discriminate.
  rewrite substring_0_0.
  destruct (Ascii.eqb_spec a "~") as [->|_]; [|discriminate].
  destruct (Ascii.eqb_spec b "/") as [->|_]; [|discriminate].
  intros _. rewrite Nat.sub_0_r, substring_all. reflexivity.
Qed.

(** C10. [expandPath] rewrites exactly the paths that start with "~/"
    (so they are longer than one byte): the rest of such a path is joined
    onto the home directory of the current user. Every other path, among
    them "~", the empty path, absolute and relative paths, comes back
    unchanged and without an error. *)
Theorem expandPath_only_tilde_slash (w : World) :
  (forall rest homeDir,
      user_Current w = Ok homeDir ->
      expandPath w ("~/" ++ rest) = Ok (filepath_Join w homeDir rest)) /\
  (forall path,
      strings_HasPrefix path "~/" = true ->
      (1 < String.length path)%nat /\
      path = "~/" ++ substring 2 (String.length path - 2) path) /\
  (forall path,
      strings_HasPrefix path "~/" = false -> expandPath w path = Ok path) /\
  expandPath w "~" = Ok "~" /\
  expandPath w "" = Ok "" /\
  expandPath w "/etc/ssh/key" = Ok "/etc/ssh/key" /\
  expandPath w "keys/id_rsa" = Ok "keys/id_rsa" /\
  expandPath w "~admin/key" = Ok "~admin/key".
Proof.
  split; [|split; [|split]].
  - intros rest homeDir Hhome. rewrite expandPath_tilde, Hhome. reflexivity.
  - intros path H. split.
    + now apply HasPrefix_tilde_length.
    + now apply HasPrefix_tilde_split.
  - apply expandPath_other.
  - repeat split; apply expandPath_other; reflexivity.
Qed.

Lemma expandPath_only_tilde_slash_witness :
  expandPath Sample.bare "~/.ssh/id_rsa" = Ok "/home/admin/.ssh/id_rsa" /\
  ((1 < String.length "~/.ssh/id_rsa")%nat /\
   "~/.ssh/id_rsa" = "~/" ++ ".ssh/id_rsa") /\
  expandPath Sample.bare "/etc/ssh/key" = Ok "/etc/ssh/key".
Proof.
  destruct (expandPath_only_tilde_slash Sample.bare) as (Hexp & Hpre & Hother & _).
  split; [|split].
  - exact (Hexp ".ssh/id_rsa" "/home/admin" eq_refl).
  - exact (Hpre "~/.ssh/id_rsa" eq_refl).
  - exact (Hother "/etc/ssh/key" eq_refl).
Defined.

(** ** The loop over the default keys *)

Section DefaultKeys.

Variable w : World.

Lemma defaultKeys_body_load (config : ClientConfig) (keyPath : string) :
  defaultKeys_body w config keyPath =
  match load_signer w keyPath with
  | Some signer =>
      mkClientConfig (cfgUser config) (Auth config ++ [publicKey_auth signer])
        (HostKeyCallback_ config)
  | None => config
  end.
Proof.
  unfold defaultKeys_body, load_signer.
  destruct (expandPath w keyPath) as [expandedPath|]; [|reflexivity].
  destruct (os_ReadFile w expandedPath) as [key|]; [|reflexivity].
  destruct (ssh_ParsePrivateKey w key); reflexivity.
Qed.

Lemma defaultKeys_loop_Auth (keys : list string) :
  forall config,
    Auth (defaultKeys_loop w keys config) =
    (Auth config ++ map publicKey_auth (loaded_signers w keys))%list.
Proof.
  unfold defaultKeys_loop.
  induction keys as [|keyPath keys IH]; intros config; simpl.
  - now rewrite app_nil_r.
  - rewrite IH, defaultKeys_body_load.
    destruct (load_signer w keyPath) as [signer|]; simpl; [|reflexivity].
    now rewrite <- app_assoc.
Qed.

Lemma defaultKeys_loop_rest (keys : list string) :
  forall config,
    cfgUser (defaultKeys_loop w keys config) = cfgUser config /\
    HostKeyCallback_ (defaultKeys_loop w keys config) = HostKeyCallback_ config.
Proof.
  unfold defaultKeys_loop.
  induction keys as [|keyPath keys IH]; intros config; simpl.
  - split; reflexivity.
  - destruct (IH (defaultKeys_body w config keyPath)) as [-> ->].
    rewrite defaultKeys_body_load.
    destruct (load_signer w keyPath); split; reflexivity.
Qed.

Lemma loaded_signers_In (keys : list string) (keyPath : string)
    (signer : Signer) :
  In keyPath keys -> load_signer w keyPath = Some signer ->
  In signer (loaded_signers w keys).
Proof.
  induction keys as [|k keys IH]; simpl; [tauto|].
  intros [->|Hin] Hload.
  - rewrite Hload. now left.
  - destruct (load_signer w k); [right|]; now apply IH.
Qed.

Lemma loaded_signers_nil (keys : list string) :
  loaded_signers w keys = [] <->
  forall keyPath, In keyPath keys -> load_signer w keyPath = None.
Proof.
  induction keys as [|k keys IH]; simpl.
  - split; [intros _ ? [] | reflexivity].
  - destruct (load_signer w k) eqn:Hk.
    + split; [discriminate|]. intros H.
      specialize (H k (or_introl eq_refl)). congruence.
    + rewrite IH. split.
      * intros H keyPath [<-|Hin]; [assumption | now apply H].
      * intros H keyPath Hin. apply H. now right.
Qed.

Lemma loaded_signers_app (xs ys : list string) :
  loaded_signers w (xs ++ ys) =
  (loaded_signers w xs ++ loaded_signers w ys)%list.
Proof.
  induction xs as [|k xs IH]; simpl; [reflexivity|].
  destruct (load_signer w k); simpl; now rewrite IH.
Qed.

Lemma addKeysAuth_Auth (keys : list string) (config : ClientConfig) :
  Auth (fst (addKeysAuth w keys config)) =
  (Auth config ++ map publicKey_auth (loaded_signers w keys))%list.
Proof.
  unfold addKeysAuth.
  destruct (List.length (Auth (defaultKeys_loop w keys config)) =? 0)%nat;
    simpl; apply defaultKeys_loop_Auth.
Qed.

Lemma addKeysAuth_error (keys : list string) (config : ClientConfig) :
  snd (addKeysAuth w keys config) =
  if (List.length (Auth config ++ map publicKey_auth (loaded_signers w keys))
      =? 0)%nat
  then Some (errorString "no authentication method available")
  else None.
Proof.
  unfold addKeysAuth. rewrite defaultKeys_loop_Auth.
  destruct (List.length _ =? 0)%nat; reflexivity.
Qed.

End DefaultKeys.

(** C7. In the traversal of the default keys a path that does not
    expand, a file that cannot be read and a key that does not parse are
    skipped: the entries gathered are those the configuration held,
    followed by one public-key entry for each key of the list that loads,
    in list order. So a key that loads after a failing entry is in the
    result whatever stood before it, and an error is returned only when
    the result has no entry at all. Stated for the loop over any key
    list; [addDefaultKeysAuth] is the loop over [defaultKeys]. *)
Theorem addDefaultKeysAuth_soft_fail (w : World) (config : ClientConfig) :
  (forall keys,
      Auth (fst (addKeysAuth w keys config)) =
      (Auth config ++ map publicKey_auth (loaded_signers w keys))%list) /\
  (forall before bad after keyPath signer,
      load_signer w bad = None ->
      In keyPath after ->
      load_signer w keyPath = Some signer ->
      In (publicKey_auth signer)
         (Auth (fst (addKeysAuth w (before ++ bad :: after)%list config)))) /\
  (forall keyPath signer,
      In keyPath defaultKeys ->
      load_signer w keyPath = Some signer ->
      In (publicKey_auth signer) (Auth (fst (addDefaultKeysAuth w config))) /\
      snd (addDefaultKeysAuth w config) = None) /\
  (forall keys,
      snd (addKeysAuth w keys config) <> None <->
      Auth config = [] /\
      forall keyPath, In keyPath keys -> load_signer w keyPath = None).
Proof.
  split; [|split; [|split]].
  - intros keys. apply addKeysAuth_Auth.
  - intros before bad after keyPath signer _ Hin Hload.
    rewrite addKeysAuth_Auth. apply in_or_app. right.
    apply in_map. apply loaded_signers_In with (keyPath := keyPath);
      [|assumption].
    apply in_or_app. right. now right.
  - intros keyPath signer Hin Hload.
    assert (Hs : In signer (loaded_signers w defaultKeys))
      by (now apply loaded_signers_In with (keyPath := keyPath)).
    unfold addDefaultKeysAuth. split.
    + rewrite addKeysAuth_Auth. apply in_or_app. right. now apply in_map.
    + rewrite addKeysAuth_error.
      destruct (loaded_signers w defaultKeys) as [|s l]; [destruct Hs|].
      rewrite length_app. simpl.
      replace (List.length (Auth config) + S (List.length (map publicKey_auth l)))%nat
        with (S (List.length (Auth config) + List.length (map publicKey_auth l)))
        by lia.
      reflexivity.
  - intros keys. rewrite addKeysAuth_error, <- loaded_signers_nil.
    destruct (Auth config) as [|a l]; simpl.
    + destruct (loaded_signers w keys); simpl; split;
        try discriminate; try tauto.
      intros [_ H]. discriminate.
    + split; [congruence|]. intros [H _]. discriminate.
Qed.

Lemma addDefaultKeysAuth_soft_fail_witness :
  In (publicKey_auth Sample.rsaKey)
     (Auth (fst (addKeysAuth
                   (Sample.world [] Sample.rsaFile [] Sample.anyDial (Exited 0))
                   ([] ++ "~/.ssh/id_ed25519" ::
                      ["~/.ssh/id_rsa"; "~/.ssh/id_ecdsa"; "~/.ssh/id_dsa"])%list
                   (mkClientConfig "admin" [] ssh_InsecureIgnoreHostKey)))) /\
  snd (addDefaultKeysAuth
         (Sample.world [] Sample.rsaFile [] Sample.anyDial (Exited 0))
         (mkClientConfig "admin" [] ssh_InsecureIgnoreHostKey)) = None.
Proof.
  pose proof (addDefaultKeysAuth_soft_fail
                (Sample.world [] Sample.rsaFile [] Sample.anyDial (Exited 0))
                (mkClientConfig "admin" [] ssh_InsecureIgnoreHostKey))
    as (_ & Hlater & Hdefault & _).
  split.
  - apply (Hlater [] "~/.ssh/id_ed25519" _ "~/.ssh/id_rsa" Sample.rsaKey).
    + reflexivity.
    + simpl. left. reflexivity.
    + reflexivity.
  - apply (Hdefault "~/.ssh/id_rsa" Sample.rsaKey).
    + simpl. right. left. reflexivity.
    + reflexivity.
Defined.

(** ** The credential collectors and the resolver *)

(** A collector that returns an error hands the configuration back as
    it received it. *)
Ltac collector_fails := split; [reflexivity | discriminate].

Section Resolver.

Variable w : World.

Lemma addSSHAgentAuth_signers (config : ClientConfig) :
  match agent_signers w with
  | [] =>
      fst (addSSHAgentAuth w config) = config /\
      snd (addSSHAgentAuth w config) <> None
  | _ :: _ =>
      addSSHAgentAuth w config =
      (mkClientConfig (cfgUser config)
         (Auth config ++ [ssh_PublicKeys (agent_signers w)])
         (HostKeyCallback_ config), None)
  end.
Proof.
  unfold addSSHAgentAuth, agent_signers.
  destruct (String.eqb (os_Getenv w "SSH_AUTH_SOCK") "");
    [collector_fails|].
  destruct (net_Dial_unix w (os_Getenv w "SSH_AUTH_SOCK")) as [conn|];
    [|collector_fails].
  destruct (agent_Signers w conn) as [[|s signers]|];
    first [reflexivity | collector_fails].
Qed.

Lemma addKeyFileAuth_load (config : ClientConfig) (keyPath : string) :
  match load_signer w keyPath with
  | None =>
      fst (addKeyFileAuth w config keyPath) = config /\
      snd (addKeyFileAuth w config keyPath) <> None
  | Some signer =>
      addKeyFileAuth w config keyPath =
      (mkClientConfig (cfgUser config) (Auth config ++ [publicKey_auth signer])
         (HostKeyCallback_ config), None)
  end.
Proof.
  unfold addKeyFileAuth, load_signer.
  destruct (expandPath w keyPath) as [expandedPath|];
    [|collector_fails].
  destruct (os_ReadFile w expandedPath) as [key|];
    [|collector_fails].
  destruct (ssh_ParsePrivateKey w key);
    [reflexivity | collector_fails].
Qed.

(** The agent method: one entry holding all the signers of the agent. *)
Lemma withAuth_agent (host : Host) :
  buildClientConfigWithAuth w host AuthMethodSSHAgent =
  match agent_signers w with
  | [] => (None, snd (addSSHAgentAuth w
                        (mkClientConfig (User host) []
                           ssh_InsecureIgnoreHostKey)))
  | signers =>
      (Some (mkClientConfig (User host) [ssh_PublicKeys signers]
               ssh_InsecureIgnoreHostKey), None)
  end.
Proof.
  unfold buildClientConfigWithAuth.
  change (AuthMethodSSHAgent =? AuthMethodPassword)%Z with false.
  change (AuthMethodSSHAgent =? AuthMethodSSHAgent)%Z with true.
  cbv iota.
  pose proof (addSSHAgentAuth_signers
                (mkClientConfig (User host) [] ssh_InsecureIgnoreHostKey)) as H.
  destruct (agent_signers w) as [|s signers].
  - destruct H as [_ H].
    destruct (addSSHAgentAuth w _) as [c [e|]]; [reflexivity | now elim H].
  - rewrite H. reflexivity.
Qed.

(** The key-file method (also chosen by [AuthMethodNone]): the identity
    file when the host names one, the default keys otherwise. *)
Lemma withAuth_keyFile (host : Host) (auth : AuthMethod) :
  auth = AuthMethodKeyFile \/ auth = AuthMethodNone ->
  buildClientConfigWithAuth w host auth =
  if String.eqb (Identity host) "" then
    match loaded_signers w defaultKeys with
    | [] => (None, Some authExhausted)
    | signers =>
        (Some (mkClientConfig (User host) (map publicKey_auth signers)
                 ssh_InsecureIgnoreHostKey), None)
    end
  else
    match load_signer w (Identity host) with
    | None => (None, snd (addKeyFileAuth w
                            (mkClientConfig (User host) []
                               ssh_InsecureIgnoreHostKey) (Identity host)))
    | Some signer =>
        (Some (mkClientConfig (User host) [publicKey_auth signer]
                 ssh_InsecureIgnoreHostKey), None)
    end.
Proof.
  intros Hauth. unfold buildClientConfigWithAuth.
  replace (auth =? AuthMethodPassword)%Z with false
    by (destruct Hauth; subst; reflexivity).
  replace (auth =? AuthMethodSSHAgent)%Z with false
    by (destruct Hauth; subst; reflexivity).
  replace ((auth =? AuthMethodKeyFile)%Z || (auth =? AuthMethodNone)%Z)
    with true by (destruct Hauth; subst; reflexivity).
  cbv iota.
  destruct (String.eqb (Identity host) ""); cbv [negb]; cbv iota.
  - unfold addDefaultKeysAuth, addKeysAuth.
    pose proof (defaultKeys_loop_Auth w defaultKeys
                  (mkClientConfig (User host) [] ssh_InsecureIgnoreHostKey))
      as HA.
    pose proof (defaultKeys_loop_rest w defaultKeys
                  (mkClientConfig (User host) [] ssh_InsecureIgnoreHostKey))
      as [HU HK].
    destruct (defaultKeys_loop w defaultKeys _) as [u a k].
    cbn [Auth cfgUser HostKeyCallback_ app] in HA, HU, HK. subst u a k.
    destruct (loaded_signers w defaultKeys); reflexivity.
  - pose proof (addKeyFileAuth_load
                  (mkClientConfig (User host) [] ssh_InsecureIgnoreHostKey)
                  (Identity host)) as H.
    destruct (load_signer w (Identity host)) as [signer|].
    + rewrite H. reflexivity.
    + destruct H as [_ H].
      destruct (addKeyFileAuth w _ _) as [c [e|]]; [reflexivity | now elim H].
Qed.

Lemma withAuth_password (host : Host) :
  buildClientConfigWithAuth w host AuthMethodPassword =
  (Some (mkClientConfig (User host) [] ssh_InsecureIgnoreHostKey),
   Some (errorString "password authentication not implemented")).
Proof. reflexivity. Qed.

(** Any other value of the method type runs no collector. *)
Lemma withAuth_other (host : Host) (auth : AuthMethod) :
  (auth < 0 \/ 3 < auth)%Z ->
  buildClientConfigWithAuth w host auth = (None, Some authExhausted).
Proof.
  intros H. unfold buildClientConfigWithAuth,
    AuthMethodPassword, AuthMethodSSHAgent, AuthMethodKeyFile, AuthMethodNone.
  destruct (Z.eqb_spec auth 1); [lia|].
  destruct (Z.eqb_spec auth 3); [lia|].
  destruct (Z.eqb_spec auth 2); [lia|].
  destruct (Z.eqb_spec auth 0); [lia|].
  reflexivity.
Qed.

(** What [buildClientConfig] returns, by credential source. *)
Lemma buildClientConfig_sources (host : Host) :
  buildClientConfig w host =
  match agent_signers w with
  | _ :: _ =>
      Ok (mkClientConfig (User host) [ssh_PublicKeys (agent_signers w)]
            ssh_InsecureIgnoreHostKey)
  | [] =>
      if String.eqb (Identity host) "" then
        match loaded_signers w defaultKeys with
        | [] => Err authExhausted
        | signers =>
            Ok (mkClientConfig (User host) (map publicKey_auth signers)
                  ssh_InsecureIgnoreHostKey)
        end
      else
        match load_signer w (Identity host) with
        | None => Err authExhausted
        | Some signer =>
            Ok (mkClientConfig (User host) [publicKey_auth signer]
                  ssh_InsecureIgnoreHostKey)
        end
  end.
Proof.
  unfold buildClientConfig, buildClientConfig_loop.
  rewrite withAuth_agent, (withAuth_keyFile host (or_introl eq_refl)).
  destruct (agent_signers w) as [|s signers]; [|reflexivity].
  cbv iota.
  destruct (String.eqb (Identity host) "").
  - destruct (loaded_signers w defaultKeys); reflexivity.
  - destruct (load_signer w (Identity host)) as [signer|]; reflexivity.
Qed.

(** The only error of [buildClientConfig]. *)
Lemma buildClientConfig_Err (host : Host) (err : error) :
  buildClientConfig w host = Err err -> err = authExhausted.
Proof.
  rewrite buildClientConfig_sources. intros H.
  destruct (agent_signers w); [|discriminate].
  destruct (String.eqb (Identity host) "").
  - destruct (loaded_signers w defaultKeys); [|discriminate].
    now injection H as <-.
  - destruct (load_signer w (Identity host)); [discriminate|].
    now injection H as <-.
Qed.

End Resolver.

Lemma Legacy_buildClientConfig_callback (w : World) (host : Host)
    (config : ClientConfig) :
  Legacy.buildClientConfig w host = Ok config ->
  HostKeyCallback_ config = ssh_InsecureIgnoreHostKey.
Proof.
  unfold Legacy.buildClientConfig.
  destruct (negb (String.eqb (Identity host) "")).
  - destruct (expandPath w (Identity host)) as [keyPath|]; [|discriminate].
    destruct (os_ReadFile w keyPath) as [key|]; [|discriminate].
    destruct (ssh_ParsePrivateKey w key) as [signer|]; [|discriminate].
    cbn. intros H. injection H as <-. reflexivity.
  - pose proof (defaultKeys_loop_rest w defaultKeys
                  (mkClientConfig (User host) [] ssh_InsecureIgnoreHostKey))
      as [_ HK].
    unfold defaultKeys_loop in HK.
    destruct (List.length _ =? 0)%nat; [discriminate|].
    intros H. injection H as <-. exact HK.
Qed.

(** ** Host-key verification *)

(** C1. Every configuration the connector produces carries the
    accept-any host-key callback: the one [buildClientConfigWithAuth]
    returns for any host and any method value (the password method, which
    returns a configuration next to its error, included), the one
    [buildClientConfig] returns, and the one of the earlier connector.
    Such a callback returns nil for every presented key, so no host key
    is ever rejected. *)
Theorem every_config_accepts_any_host_key (w : World) (host : Host) :
  (forall auth config,
      fst (buildClientConfigWithAuth w host auth) = Some config ->
      HostKeyCallback_ config = ssh_InsecureIgnoreHostKey /\
      accepts_any_host_key config) /\
  (forall config,
      buildClientConfig w host = Ok config ->
      HostKeyCallback_ config = ssh_InsecureIgnoreHostKey /\
      accepts_any_host_key config) /\
  (forall config,
      Legacy.buildClientConfig w host = Ok config ->
      HostKeyCallback_ config = ssh_InsecureIgnoreHostKey /\
      accepts_any_host_key config).
Proof.
  assert (Hacc : forall config,
             HostKeyCallback_ config = ssh_InsecureIgnoreHostKey ->
             HostKeyCallback_ config = ssh_InsecureIgnoreHostKey /\
             accepts_any_host_key config).
  { intros config H. split; [assumption|].
    intros hostname remote key. rewrite H. reflexivity. }
  split; [|split].
  - intros auth config H. apply Hacc.
    destruct (Z.eq_dec auth AuthMethodPassword) as [->|Hp].
    { rewrite withAuth_password in H. injection H as <-. reflexivity. }
    destruct (Z.eq_dec auth AuthMethodSSHAgent) as [->|Ha].
    { rewrite withAuth_agent in H.
      destruct (agent_signers w); [discriminate|].
      injection H as <-. reflexivity. }
    destruct (Z.eq_dec auth AuthMethodKeyFile) as [Hk|Hk];
      [|destruct (Z.eq_dec auth AuthMethodNone) as [Hn|Hn]].
    1, 2: rewrite withAuth_keyFile in H by tauto;
      destruct (String.eqb (Identity host) "");
      [ destruct (loaded_signers w defaultKeys); [discriminate|]
      | destruct (load_signer w (Identity host)); [|discriminate] ];
      injection H as <-; reflexivity.
    rewrite withAuth_other in H; [discriminate|].
    unfold AuthMethodPassword, AuthMethodSSHAgent, AuthMethodKeyFile,
      AuthMethodNone in *. lia.
  - intros config H. apply Hacc.
    rewrite buildClientConfig_sources in H.
    destruct (agent_signers w); [|injection H as <-; reflexivity].
    destruct (String.eqb (Identity host) "").
    + destruct (loaded_signers w defaultKeys); [discriminate|].
      injection H as <-. reflexivity.
    + destruct (load_signer w (Identity host)); [|discriminate].
      injection H as <-. reflexivity.
  - intros config H. apply Hacc.
    now apply Legacy_buildClientConfig_callback with (w := w) (host := host).
Qed.

Lemma every_config_accepts_any_host_key_witness :
  accepts_any_host_key
    (mkClientConfig "admin" [ssh_PublicKeys [Sample.adminKey]]
       ssh_InsecureIgnoreHostKey) /\
  accepts_any_host_key
    (mkClientConfig "admin" [] ssh_InsecureIgnoreHostKey) /\
  accepts_any_host_key
    (mkClientConfig "admin" [publicKey_auth Sample.rsaKey]
       ssh_InsecureIgnoreHostKey).
Proof.
  split; [|split].
  - apply (proj1 (every_config_accepts_any_host_key
                    (Sample.world Sample.withAgent [] [Sample.adminKey]
                       Sample.anyDial (Exited 0)) Sample.admin)
             AuthMethodSSHAgent).
    reflexivity.
  - apply (proj1 (every_config_accepts_any_host_key Sample.bare Sample.admin)
             AuthMethodPassword).
    reflexivity.
  - apply (proj2 (proj2 (every_config_accepts_any_host_key
                    (Sample.world [] Sample.rsaFile [] Sample.anyDial (Exited 0))
                    Sample.admin))).
    reflexivity.
Defined.

(** ** Exhaustion of the credential sources *)

(** C2, as stated, fails: with no agent and an identity file that cannot
    be read, the resolver reports exhaustion although the default key
    ~/.ssh/id_rsa is present and parses. *)
Lemma exhausted_despite_default_key :
  let w := Sample.world [] Sample.rsaFile [] Sample.anyDial (Exited 0) in
  exhausted w Sample.adminPinned /\
  buildClientConfig w Sample.adminPinned = Err authExhausted /\
  In "~/.ssh/id_rsa" defaultKeys /\
  load_signer w "~/.ssh/id_rsa" = Some Sample.rsaKey /\
  ~ (exhausted w Sample.adminPinned <-> no_source_yields w Sample.adminPinned).
Proof.
  cbv zeta.
  assert (Hex : exhausted
                  (Sample.world [] Sample.rsaFile [] Sample.anyDial (Exited 0))
                  Sample.adminPinned)
    by (exists authExhausted; reflexivity).
  split; [exact Hex|].
  split; [reflexivity|].
  split; [simpl; tauto|].
  split; [reflexivity|].
  intros [Hto _]. destruct (Hto Hex) as (_ & _ & Hnone).
  specialize (Hnone "~/.ssh/id_rsa"). simpl in Hnone.
  assert (Habs : load_signer
                   (Sample.world [] Sample.rsaFile [] Sample.anyDial (Exited 0))
                   "~/.ssh/id_rsa" = None) by (apply Hnone; tauto).
  discriminate Habs.
Qed.

(** C2, amended. The resolver reports exhaustion exactly when none of
    the sources it consults yields a signer: the agent yields none and,
    for a host that names an identity file, that file yields none, or,
    for a host that names none, no default key path yields one. The
    default key paths are not consulted for a host that names an identity
    file. *)
Theorem exhausted_iff_no_consulted_source (w : World) (host : Host) :
  exhausted w host <-> no_consulted_source_yields w host.
Proof.
  unfold exhausted, no_consulted_source_yields.
  rewrite buildClientConfig_sources.
  destruct (agent_signers w) as [|s signers].
  - destruct (String.eqb (Identity host) "").
    + destruct (loaded_signers w defaultKeys) as [|s l] eqn:Hl.
      * split; [|intros _; eexists; reflexivity].
        intros _. split; [reflexivity|]. now apply loaded_signers_nil.
      * split; [intros [err H]; discriminate|].
        intros [_ H]. apply loaded_signers_nil in H. congruence.
    + destruct (load_signer w (Identity host)) as [signer|].
      * split; [intros [err H]; discriminate | intros [_ H]; discriminate].
      * split; [intros _; split; reflexivity | intros _; eexists; reflexivity].
  - split; [intros [err H]; discriminate | intros [H _]; discriminate].
Qed.

(** ** The exhaustion error *)

(** C4, as stated, fails: for the host of the scenario, with no agent and
    no default key, the error is the fixed text "no authentication method
    available"; it names neither the agent nor any key file, and it is
    the same error a host with a pinned, unreadable identity gets, for
    which other methods were attempted. *)
Lemma exhaustion_error_lists_no_method :
  buildClientConfig Sample.bare Sample.admin = Err authExhausted /\
  Error authExhausted = "no authentication method available" /\
  contains (Error authExhausted) "gent" = false /\
  contains (Error authExhausted) "id_ed25519" = false /\
  contains (Error authExhausted) "id_rsa" = false /\
  contains (Error authExhausted) "id_ecdsa" = false /\
  contains (Error authExhausted) "id_dsa" = false /\
  contains (Error authExhausted) "ey" = false /\
  buildClientConfig Sample.bare Sample.adminPinned
  = buildClientConfig Sample.bare Sample.admin.
Proof. repeat split; reflexivity. Qed.

(** C4, amended. Whenever the resolver fails with no usable signer, the
    single resulting error is the fixed text "no authentication method
    available", whatever the host and the world; the errors of the
    individual methods are dropped. *)
Theorem exhaustion_error_is_fixed (w : World) (host : Host) (err : error) :
  buildClientConfig w host = Err err ->
  err = authExhausted /\
  Error err = "no authentication method available".
Proof.
  intros H. apply buildClientConfig_Err in H. subst err. split; reflexivity.
Qed.

Lemma exhaustion_error_is_fixed_witness :
  authExhausted = authExhausted /\
  Error authExhausted = "no authentication method available".
Proof.
  apply (@exhaustion_error_is_fixed Sample.bare Sample.admin authExhausted).
  reflexivity.
Defined.

(** ** Connect *)

Lemma dialWith_failure (w : World) (c c' : Connector) (host : Host)
    (config : ClientConfig) (err : error) :
  dialWith w c host config = (c', Some err) ->
  c' = c /\
  exists cause,
    ssh_Dial w (Sprintf_addr (Host_ host) (Port host)) config = Err cause /\
    err = wrapError ("failed to connect to "
                     ++ Sprintf_addr (Host_ host) (Port host)) cause.
Proof.
  unfold dialWith.
  destruct (ssh_Dial w _ config) as [cl|cause]; [discriminate|].
  intros H. injection H as <- <-. split; [reflexivity|].
  exists cause. split; reflexivity.
Qed.

Lemma withAuth_some (w : World) (host : Host) (auth : AuthMethod) :
  snd (buildClientConfigWithAuth w host auth) = None ->
  fst (buildClientConfigWithAuth w host auth) <> None.
Proof.
  unfold buildClientConfigWithAuth.
  destruct (auth =? AuthMethodPassword)%Z; [discriminate|].
  destruct (auth =? AuthMethodSSHAgent)%Z.
  { destruct (addSSHAgentAuth w _) as [c [e|]]; [discriminate|].
    destruct (List.length (Auth c) =? 0)%nat; discriminate. }
  destruct ((auth =? AuthMethodKeyFile)%Z || (auth =? AuthMethodNone)%Z).
  { destruct (negb (String.eqb (Identity host) "")).
    - destruct (addKeyFileAuth w _ _) as [c [e|]]; [discriminate|].
      destruct (List.length (Auth c) =? 0)%nat; discriminate.
    - destruct (addDefaultKeysAuth w _) as [c [e|]]; [discriminate|].
      destruct (List.length (Auth c) =? 0)%nat; discriminate. }
  cbn. discriminate.
Qed.

(** C9. A failed [Connect] or [ConnectWithAuth] (of either connector)
    leaves the connector as it was, whether the configuration could not
    be built or the dial failed; so a fresh connector is still not
    connected after a failed [Connect]. *)
Theorem Connect_failure_keeps_connector (w : World) (host : Host) :
  (forall c c' err, Connect w c host = (c', Some err) ->
                    c' = c /\ client c' = client c /\ config c' = config c) /\
  (forall c c' auth err, ConnectWithAuth w c host auth = (c', Some err) ->
                    c' = c /\ client c' = client c /\ config c' = config c) /\
  (forall c c' err, Legacy.Connect w c host = (c', Some err) ->
                    c' = c /\ client c' = client c /\ config c' = config c) /\
  (forall c' err, Connect w NewConnector host = (c', Some err) ->
                  IsConnected c' = false).
Proof.
  assert (Hsame : forall c c' : Connector,
             c' = c -> c' = c /\ client c' = client c /\ config c' = config c)
    by (intros c c' ->; repeat split).
  assert (HC : forall c c' err, Connect w c host = (c', Some err) -> c' = c).
  { intros c c' err. unfold Connect.
    destruct (buildClientConfig w host) as [cfg|e].
    - intros H. now apply dialWith_failure in H.
    - intros H. now injection H as <- _. }
  split; [|split; [|split]].
  - intros c c' err H. apply Hsame. now apply HC with (err := err).
  - intros c c' auth err. unfold ConnectWithAuth.
    destruct (buildClientConfigWithAuth w host auth) as [[cfg|] [e|]];
      intros H; apply Hsame.
    + now injection H as <- _.
    + now apply dialWith_failure in H.
    + now injection H as <- _.
    + discriminate.
  - intros c c' err. unfold Legacy.Connect.
    destruct (Legacy.buildClientConfig w host) as [cfg|e];
      intros H; apply Hsame.
    + now apply dialWith_failure in H.
    + now injection H as <- _.
  - intros c' err H. apply HC in H. subst c'. reflexivity.
Qed.

Lemma Connect_failure_keeps_connector_witness :
  IsConnected NewConnector = false /\
  (mkConnector (Some (mkClient 7)) None = mkConnector (Some (mkClient 7)) None
   /\ client (mkConnector (Some (mkClient 7)) None) = Some (mkClient 7)
   /\ config (mkConnector (Some (mkClient 7)) None) = None).
Proof.
  split.
  - apply (proj2 (proj2 (proj2 (Connect_failure_keeps_connector
                                  Sample.bare Sample.admin)))
             NewConnector
             (wrapError "failed to build client config" authExhausted)).
    reflexivity.
  - apply (proj1 (Connect_failure_keeps_connector
                    (Sample.world Sample.withAgent [] [Sample.adminKey]
                       Sample.refuse (Exited 0)) Sample.admin)
             (mkConnector (Some (mkClient 7)) None)
             (mkConnector (Some (mkClient 7)) None)
             (wrapError "failed to connect to 203.0.113.5:22"
                Sample.ECONNREFUSED)).
    reflexivity.
Defined.

(** C5, as stated, fails. With no agent and no key file [Connect] fails
    before any dial, in a world where every dial would succeed: the
    failure is neither a failed TCP dial, nor a failed handshake, nor a
    rejected host key. And when the handshake fails, the error is the
    same whether the configuration came from the agent or from a key
    file: it does not tell which method was in use. *)
Lemma Connect_failure_outside_the_three_classes :
  Connect Sample.bare NewConnector Sample.admin =
    (NewConnector,
     Some (wrapError "failed to build client config" authExhausted)) /\
  (forall addr config, ssh_Dial Sample.bare addr config = Ok (mkClient 1)) /\
  buildClientConfig
    (Sample.world Sample.withAgent [] [Sample.adminKey] Sample.rejectAuth
       (Exited 0)) Sample.admin
  = Ok (mkClientConfig "admin" [ssh_PublicKeys [Sample.adminKey]]
          ssh_InsecureIgnoreHostKey) /\
  buildClientConfig
    (Sample.world [] Sample.rsaFile [] Sample.rejectAuth (Exited 0))
    Sample.admin
  = Ok (mkClientConfig "admin" [ssh_PublicKeys [Sample.rsaKey]]
          ssh_InsecureIgnoreHostKey) /\
  snd (Connect
         (Sample.world Sample.withAgent [] [Sample.adminKey] Sample.rejectAuth
            (Exited 0)) NewConnector Sample.admin)
  = Some (wrapError "failed to connect to 203.0.113.5:22"
            Sample.handshakeFailed) /\
  snd (Connect
         (Sample.world [] Sample.rsaFile [] Sample.rejectAuth (Exited 0))
         NewConnector Sample.admin)
  = Some (wrapError "failed to connect to 203.0.113.5:22"
            Sample.handshakeFailed).
Proof. repeat split. Qed.

(** C5, amended. A failed [Connect] returns one of two errors. Either
    the configuration could not be built, and the error is "failed to
    build client config" wrapping the exhaustion error, no dial having
    been made; or the dial to host:port failed, and the error is "failed
    to connect to host:port" wrapping whatever error the dial returned.
    [Connect] adds no classification of its own to a failed dial and does
    not record the method in use. *)
Theorem Connect_failure_two_forms (w : World) (c c' : Connector)
    (host : Host) (err : error) :
  Connect w c host = (c', Some err) ->
  (buildClientConfig w host = Err authExhausted /\
   err = wrapError "failed to build client config" authExhausted) \/
  (exists config cause,
      buildClientConfig w host = Ok config /\
      ssh_Dial w (Sprintf_addr (Host_ host) (Port host)) config = Err cause /\
      err = wrapError ("failed to connect to "
                       ++ Sprintf_addr (Host_ host) (Port host)) cause).
Proof.
  unfold Connect.
  destruct (buildClientConfig w host) as [cfg|e] eqn:Hcfg.
  - intros H. right. apply dialWith_failure in H.
    destruct H as [_ (cause & Hdial & ->)].
    exists cfg, cause. repeat split; assumption.
  - intros H. left. injection H as _ <-.
    apply buildClientConfig_Err in Hcfg. subst e. split; reflexivity.
Qed.

Lemma Connect_failure_two_forms_witness :
  (buildClientConfig
     (Sample.world Sample.withAgent [] [Sample.adminKey] Sample.refuse
        (Exited 0)) Sample.admin = Err authExhausted /\
   wrapError "failed to connect to 203.0.113.5:22" Sample.ECONNREFUSED
   = wrapError "failed to build client config" authExhausted) \/
  (exists config cause,
      buildClientConfig
        (Sample.world Sample.withAgent [] [Sample.adminKey] Sample.refuse
           (Exited 0)) Sample.admin = Ok config /\
      ssh_Dial
        (Sample.world Sample.withAgent [] [Sample.adminKey] Sample.refuse
           (Exited 0))
        (Sprintf_addr (Host_ Sample.admin) (Port Sample.admin)) config
      = Err cause /\
      wrapError "failed to connect to 203.0.113.5:22" Sample.ECONNREFUSED
      = wrapError ("failed to connect to "
                   ++ Sprintf_addr (Host_ Sample.admin) (Port Sample.admin))
          cause).
Proof.
  apply (@Connect_failure_two_forms
           (Sample.world Sample.withAgent [] [Sample.adminKey] Sample.refuse
              (Exited 0))
           NewConnector NewConnector Sample.admin).
  reflexivity.
Defined.

(** ** The address dialed *)

(** C3: the connector dials the port of the record as it is. For the
    record of 203.0.113.5 with port 0 and a server that listens on port
    22, [Connect], [ConnectWithAuth] and [CheckConnection] dial
    203.0.113.5:0 and fail, and so does [Ping] with port 0; the same
    record with port 22 connects. Only the host form turns a port of 0
    into 22, when it saves a record. *)
Lemma port_zero_is_dialed_as_zero :
  let w := Sample.world Sample.withAgent [] [Sample.adminKey] Sample.sshdOnly
             (Exited 0) in
  Port Sample.adminNoPort = 0%Z /\
  Sprintf_addr (Host_ Sample.adminNoPort) (Port Sample.adminNoPort)
  = "203.0.113.5:0" /\
  Connect w NewConnector Sample.adminNoPort =
    (NewConnector,
     Some (wrapError "failed to connect to 203.0.113.5:0"
             Sample.ECONNREFUSED)) /\
  ConnectWithAuth w NewConnector Sample.adminNoPort AuthMethodSSHAgent =
    (NewConnector,
     Some (wrapError "failed to connect to 203.0.113.5:0"
             Sample.ECONNREFUSED)) /\
  Legacy.Connect
    (Sample.world [] Sample.rsaFile [] Sample.sshdOnly (Exited 0))
    NewConnector Sample.adminNoPort =
    (NewConnector,
     Some (wrapError "failed to connect to 203.0.113.5:0"
             Sample.ECONNREFUSED)) /\
  CheckConnection w Sample.adminNoPort =
    Some (wrapError "cannot reach 203.0.113.5:0" Sample.ECONNREFUSED) /\
  Ping w "203.0.113.5" 0 = Some Sample.ECONNREFUSED /\
  snd (Connect w NewConnector Sample.admin) = None /\
  CheckConnection w Sample.admin = None /\
  EditView_save_port "0" = Some 22%Z.
Proof. cbv zeta. repeat split. Qed.

(** ** The terminal size *)

(** C8. When COLUMNS or LINES is unset (or empty), or one of them does
    not parse as an integer, [getTerminalSize] returns 80 by 24; when
    both are set and parse, it returns their values as they are. *)
Theorem getTerminalSize_env_or_default (w : World) :
  (os_Getenv w "COLUMNS" = "" \/ os_Getenv w "LINES" = "" \/
   strconv_Atoi (os_Getenv w "COLUMNS") = None \/
   strconv_Atoi (os_Getenv w "LINES") = None ->
   getTerminalSize w = (80%Z, 24%Z)) /\
  (forall width height,
      strconv_Atoi (os_Getenv w "COLUMNS") = Some width ->
      strconv_Atoi (os_Getenv w "LINES") = Some height ->
      getTerminalSize w = (width, height)).
Proof.
  unfold getTerminalSize, getTerminalSizeImpl. split.
  - intros H.
    destruct (String.eqb_spec (os_Getenv w "COLUMNS") "") as [Hc|Hc];
      [reflexivity|].
    destruct (String.eqb_spec (os_Getenv w "LINES") "") as [Hl|Hl];
      [reflexivity|].
    cbn [negb].
    destruct H as [H|[H|[H|H]]]; try contradiction.
    + rewrite H. reflexivity.
    + rewrite H. destruct (strconv_Atoi (os_Getenv w "COLUMNS")); reflexivity.
  - intros width height Hw Hh.
    destruct (String.eqb_spec (os_Getenv w "COLUMNS") "") as [Hc|Hc].
    { rewrite Hc in Hw. discriminate. }
    destruct (String.eqb_spec (os_Getenv w "LINES") "") as [Hl|Hl].
    { rewrite Hl in Hh. discriminate. }
    cbn [negb]. rewrite Hw, Hh. reflexivity.
Qed.

Lemma getTerminalSize_env_or_default_witness :
  getTerminalSize Sample.bare = (80%Z, 24%Z) /\
  getTerminalSize
    (Sample.world [("COLUMNS", "100"); ("LINES", "4O")] [] [] Sample.anyDial
       (Exited 0)) = (80%Z, 24%Z) /\
  getTerminalSize
    (Sample.world [("COLUMNS", "100"); ("LINES", "40")] [] [] Sample.anyDial
       (Exited 0)) = (100%Z, 40%Z) /\
  getTerminalSize
    (Sample.world [("COLUMNS", "-3"); ("LINES", "0")] [] [] Sample.anyDial
       (Exited 0)) = ((-3)%Z, 0%Z).
Proof.
  split; [|split; [|split]].
  - apply (proj1 (getTerminalSize_env_or_default Sample.bare)).
    left. reflexivity.
  - apply (proj1 (getTerminalSize_env_or_default
                    (Sample.world [("COLUMNS", "100"); ("LINES", "4O")] [] []
                       Sample.anyDial (Exited 0)))).
    right. right. right. reflexivity.
  - apply (proj2 (getTerminalSize_env_or_default
                    (Sample.world [("COLUMNS", "100"); ("LINES", "40")] [] []
                       Sample.anyDial (Exited 0)))); reflexivity.
  - apply (proj2 (getTerminalSize_env_or_default
                    (Sample.world [("COLUMNS", "-3"); ("LINES", "0")] [] []
                       Sample.anyDial (Exited 0)))); reflexivity.
Defined.

(** ** The interactive session *)

(** C6, as stated, fails: with a working agent holding one signer, a
    terminal of 100 by 40 and a remote shell that runs exit 7, the driver
    returns a non-nil error, the exit error of status 7, not a successful
    result. *)
Lemma exit_7_is_returned_as_an_error :
  let w := Sample.world
             (Sample.withAgent ++ [("COLUMNS", "100"); ("LINES", "40")])%list
             [] [Sample.adminKey] Sample.anyDial (Exited 7) in
  snd (Connect w NewConnector Sample.admin) = None /\
  getTerminalSize w = (100%Z, 40%Z) /\
  ConnectAndInteract w Sample.admin = Some (ExitError 7) /\
  ConnectAndInteract w Sample.admin <> None /\
  Error (ExitError 7) = "Process exited with status 7".
Proof. cbv zeta. repeat split. discriminate. Qed.

(** C6, amended. For a session that reaches the streaming phase
    ([Connect], the session, the pseudo terminal and the shell all
    succeeded) and whose remote process terminates with a status, the
    driver returns nil when the status is 0, and otherwise returns, as
    its error and unwrapped, the exit error that carries the status. The
    driver has no result other than this error. *)
Theorem ConnectAndInteract_exit_status (w : World) (host : Host)
    (connector : Connector) (cl : Client) (session : Session) (status : Z) :
  Connect w NewConnector host = (connector, None) ->
  client connector = Some cl ->
  client_NewSession w cl = Ok session ->
  session_RequestPty w session "xterm" (snd (getTerminalSize w))
    (fst (getTerminalSize w)) modes = None ->
  session_Shell w session = None ->
  session_outcome w session = Exited status ->
  ConnectAndInteract w host =
  if (status =? 0)%Z then None else Some (ExitError status).
Proof.
  intros HC Hcl Hs Hpty Hsh Hout. unfold ConnectAndInteract.
  rewrite HC, Hcl, Hs.
  destruct (getTerminalSize w) as [width height]. cbn [fst snd] in Hpty.
  rewrite Hpty, Hsh, Hout. reflexivity.
Qed.

Lemma ConnectAndInteract_exit_status_witness :
  ConnectAndInteract
    (Sample.world Sample.withAgent [] [Sample.adminKey] Sample.anyDial
       (Exited 7)) Sample.admin = Some (ExitError 7) /\
  ConnectAndInteract
    (Sample.world Sample.withAgent [] [Sample.adminKey] Sample.anyDial
       (Exited 0)) Sample.admin = None.
Proof.
  split.
  - apply (@ConnectAndInteract_exit_status
             (Sample.world Sample.withAgent [] [Sample.adminKey] Sample.anyDial
                (Exited 7)) Sample.admin
             (mkConnector (Some (mkClient 1))
                (Some (mkClientConfig "admin" [ssh_PublicKeys [Sample.adminKey]]
                         ssh_InsecureIgnoreHostKey)))
             (mkClient 1) (mkSession 1) 7%Z); reflexivity.
  - apply (@ConnectAndInteract_exit_status
             (Sample.world Sample.withAgent [] [Sample.adminKey] Sample.anyDial
                (Exited 0)) Sample.admin
             (mkConnector (Some (mkClient 1))
                (Some (mkClientConfig "admin" [ssh_PublicKeys [Sample.adminKey]]
                         ssh_InsecureIgnoreHostKey)))
             (mkClient 1) (mkSession 1) 0%Z); reflexivity.
Defined.

(** * Further properties of the connector *)

(** ** A successful Connect *)

(** X1. When [Connect] returns no error, the configuration was built,
    the dial to host:port with that configuration gave a client, and the
    connector now holds exactly that client and that configuration,
    whatever it held before: it reports itself connected and [GetClient]
    gives the dialed client. *)
Theorem Connect_success_holds_dialed_client (w : World) (c c' : Connector)
    (host : Host) :
  Connect w c host = (c', None) ->
  exists cfg cl,
    buildClientConfig w host = Ok cfg /\
    ssh_Dial w (Sprintf_addr (Host_ host) (Port host)) cfg = Ok cl /\
    c' = mkConnector (Some cl) (Some cfg) /\
    IsConnected c' = true /\
    GetClient c' = Some cl.
Proof.
  unfold Connect, dialWith.
  destruct (buildClientConfig w host) as [cfg|e]; [|discriminate].
  destruct (ssh_Dial w _ cfg) as [cl|e] eqn:Hdial; [|discriminate].
  intros H. injection H as <-.
  exists cfg, cl. repeat split. exact Hdial.
Qed.

Lemma Connect_success_holds_dialed_client_witness :
  exists cfg cl,
    buildClientConfig
      (Sample.world Sample.withAgent [] [Sample.adminKey] Sample.sshdOnly
         (Exited 0)) Sample.admin = Ok cfg /\
    ssh_Dial
      (Sample.world Sample.withAgent [] [Sample.adminKey] Sample.sshdOnly
         (Exited 0))
      (Sprintf_addr (Host_ Sample.admin) (Port Sample.admin)) cfg = Ok cl /\
    mkConnector (Some (mkClient 1))
      (Some (mkClientConfig "admin" [ssh_PublicKeys [Sample.adminKey]]
               ssh_InsecureIgnoreHostKey))
    = mkConnector (Some cl) (Some cfg) /\
    IsConnected
      (mkConnector (Some (mkClient 1))
         (Some (mkClientConfig "admin" [ssh_PublicKeys [Sample.adminKey]]
                  ssh_InsecureIgnoreHostKey))) = true /\
    GetClient
      (mkConnector (Some (mkClient 1))
         (Some (mkClientConfig "admin" [ssh_PublicKeys [Sample.adminKey]]
                  ssh_InsecureIgnoreHostKey))) = Some cl.
Proof.
  apply (@Connect_success_holds_dialed_client
           (Sample.world Sample.withAgent [] [Sample.adminKey] Sample.sshdOnly
              (Exited 0))
           (mkConnector (Some (mkClient 9)) None)).
  reflexivity.
Defined.

(** ** What the resolver puts in the configuration *)

(** X2. The agent comes first: whenever the agent yields signers, the
    configuration built holds the user of the host and one entry with all
    the signers of the agent, and nothing else; the identity file and the
    default keys play no part, readable or not. *)
Theorem agent_takes_precedence (w : World) (host : Host) :
  agent_signers w <> [] ->
  buildClientConfig w host =
  Ok (mkClientConfig (User host) [ssh_PublicKeys (agent_signers w)]
        ssh_InsecureIgnoreHostKey).
Proof.
  intros H. rewrite buildClientConfig_sources.
  destruct (agent_signers w); [now elim H | reflexivity].
Qed.

Lemma agent_takes_precedence_witness :
  buildClientConfig
    (Sample.world Sample.withAgent Sample.rsaFile
       [Sample.adminKey; Sample.rsaKey] Sample.anyDial (Exited 0))
    Sample.adminPinned =
  Ok (mkClientConfig "admin" [ssh_PublicKeys [Sample.adminKey; Sample.rsaKey]]
        ssh_InsecureIgnoreHostKey).
Proof.
  apply (@agent_takes_precedence
           (Sample.world Sample.withAgent Sample.rsaFile
              [Sample.adminKey; Sample.rsaKey] Sample.anyDial (Exited 0))
           Sample.adminPinned).
  discriminate.
Defined.

Lemma loaded_signers_length (w : World) (keys : list string) :
  (List.length (loaded_signers w keys) <= List.length keys)%nat.
Proof.
  induction keys as [|k keys IH]; simpl; [lia|].
  destruct (load_signer w k); simpl; lia.
Qed.

(** X3. A configuration the resolver returns is never empty-handed: it
    carries the user of the host, between one and four authentication
    entries, and every entry holds at least one signer. *)
Theorem built_config_shape (w : World) (host : Host) (cfg : ClientConfig) :
  buildClientConfig w host = Ok cfg ->
  cfgUser cfg = User host /\
  (1 <= List.length (Auth cfg) <= 4)%nat /\
  forall method, In method (Auth cfg) ->
    exists signer signers, method = ssh_PublicKeys (signer :: signers).
Proof.
  rewrite buildClientConfig_sources.
  destruct (agent_signers w) as [|s signers].
  - destruct (String.eqb (Identity host) "").
    + pose proof (loaded_signers_length w defaultKeys) as Hlen.
      destruct (loaded_signers w defaultKeys) as [|s l]; [discriminate|].
      intros H. injection H as <-. cbn [cfgUser Auth].
      change (List.length defaultKeys) with 4%nat in Hlen.
      split; [reflexivity|]. split; [simpl in *; rewrite length_map; lia|].
      intros method [<-|Hin]; [exists s, []; reflexivity|].
      apply in_map_iff in Hin.
      destruct Hin as (signer & <- & _). exists signer, []. reflexivity.
    + destruct (load_signer w (Identity host)) as [signer|]; [|discriminate].
      intros H. injection H as <-. cbn [cfgUser Auth].
      split; [reflexivity|]. split; [simpl; lia|].
      intros method [<-|[]]. exists signer, []. reflexivity.
  - intros H. injection H as <-. cbn [cfgUser Auth].
    split; [reflexivity|]. split; [simpl; lia|].
    intros method [<-|[]]. exists s, signers. reflexivity.
Qed.

Lemma built_config_shape_witness :
  cfgUser (mkClientConfig "admin" [publicKey_auth Sample.rsaKey]
             ssh_InsecureIgnoreHostKey) = User Sample.admin /\
  (1 <= List.length (Auth (mkClientConfig "admin"
                             [publicKey_auth Sample.rsaKey]
                             ssh_InsecureIgnoreHostKey)) <= 4)%nat /\
  forall method,
    In method (Auth (mkClientConfig "admin" [publicKey_auth Sample.rsaKey]
                       ssh_InsecureIgnoreHostKey)) ->
    exists signer signers, method = ssh_PublicKeys (signer :: signers).
Proof.
  apply (@built_config_shape
           (Sample.world [] Sample.rsaFile [] Sample.anyDial (Exited 0))
           Sample.admin).
  reflexivity.
Defined.

(** X4. Without an agent, a host that names an identity file is offered
    that key alone, whatever default keys exist; a host that names none
    is offered every default key that loads, one entry each, in the order
    ed25519, rsa, ecdsa, dsa. *)
Theorem key_file_entries (w : World) (host : Host) (cfg : ClientConfig) :
  agent_signers w = [] ->
  buildClientConfig w host = Ok cfg ->
  (Identity host <> "" ->
   exists signer,
     load_signer w (Identity host) = Some signer /\
     Auth cfg = [publicKey_auth signer]) /\
  (Identity host = "" ->
   Auth cfg =
   map publicKey_auth
     (loaded_signers w
        ["~/.ssh/id_ed25519"; "~/.ssh/id_rsa"; "~/.ssh/id_ecdsa";
         "~/.ssh/id_dsa"])).
Proof.
  intros Hagent. rewrite buildClientConfig_sources, Hagent.
  destruct (String.eqb_spec (Identity host) "") as [Hid|Hid].
  - destruct (loaded_signers w defaultKeys) as [|s l] eqn:Hl; [discriminate|].
    intros H. injection H as <-. split; [intros Hne; now elim Hne|].
    intros _. cbn [Auth]. unfold defaultKeys in Hl. rewrite Hl. reflexivity.
  - destruct (load_signer w (Identity host)) as [signer|]; [|discriminate].
    intros H. injection H as <-. split; [|intros Heq; now elim Hid].
    intros _. exists signer. split; reflexivity.
Qed.

Lemma key_file_entries_witness :
  (Identity Sample.admin <> "" ->
   exists signer,
     load_signer
       (Sample.world []
          (("/home/admin/.ssh/id_ed25519", "KEY ssh-ed25519 AAAA admin")
             :: Sample.rsaFile) [] Sample.anyDial (Exited 0))
       (Identity Sample.admin) = Some signer /\
     [publicKey_auth Sample.adminKey; publicKey_auth Sample.rsaKey]
     = [publicKey_auth signer]) /\
  (Identity Sample.admin = "" ->
   [publicKey_auth Sample.adminKey; publicKey_auth Sample.rsaKey] =
   map publicKey_auth
     (loaded_signers
        (Sample.world []
           (("/home/admin/.ssh/id_ed25519", "KEY ssh-ed25519 AAAA admin")
              :: Sample.rsaFile) [] Sample.anyDial (Exited 0))
        ["~/.ssh/id_ed25519"; "~/.ssh/id_rsa"; "~/.ssh/id_ecdsa";
         "~/.ssh/id_dsa"])).
Proof.
  apply (@key_file_entries
           (Sample.world []
              (("/home/admin/.ssh/id_ed25519", "KEY ssh-ed25519 AAAA admin")
                 :: Sample.rsaFile) [] Sample.anyDial (Exited 0))
           Sample.admin
           (mkClientConfig "admin"
              [publicKey_auth Sample.adminKey; publicKey_auth Sample.rsaKey]
              ssh_InsecureIgnoreHostKey)); reflexivity.
Defined.

(** ** The method given to ConnectWithAuth *)

(** X5. How [ConnectWithAuth] treats the method value. The password
    method always fails with "password authentication not implemented"
    and makes no dial. The value [AuthMethodNone] does what
    [AuthMethodKeyFile] does. Any value outside the four constants runs no
    collector and fails with "no authentication method available". In
    the failing cases the connector is left as it was. *)
Theorem ConnectWithAuth_method_dispatch (w : World) (c : Connector)
    (host : Host) :
  ConnectWithAuth w c host AuthMethodPassword =
    (c, Some (wrapError "failed to build client config"
                (errorString "password authentication not implemented"))) /\
  ConnectWithAuth w c host AuthMethodNone =
    ConnectWithAuth w c host AuthMethodKeyFile /\
  (forall auth, (auth < 0 \/ 3 < auth)%Z ->
     ConnectWithAuth w c host auth =
       (c, Some (wrapError "failed to build client config" authExhausted))).
Proof.
  split; [reflexivity|]. split.
  - unfold ConnectWithAuth.
    rewrite (withAuth_keyFile w host (or_intror eq_refl)).
    rewrite (withAuth_keyFile w host (or_introl eq_refl)).
    reflexivity.
  - intros auth H. unfold ConnectWithAuth.
    rewrite (withAuth_other w host H). reflexivity.
Qed.

Lemma ConnectWithAuth_method_dispatch_witness :
  ConnectWithAuth Sample.bare NewConnector Sample.admin 7%Z =
    (NewConnector,
     Some (wrapError "failed to build client config" authExhausted)).
Proof.
  apply (proj2 (proj2 (ConnectWithAuth_method_dispatch
                         Sample.bare NewConnector Sample.admin))).
  right. reflexivity.
Defined.

(** X6. [Connect] is [ConnectWithAuth] with the first method that
    builds: with the agent method when the agent yields signers, and
    otherwise with the key-file method when that one builds. When neither
    builds, [Connect] fails with the fixed exhaustion error, while
    [ConnectWithAuth] with either method reports an error of its own. *)
Theorem Connect_is_ConnectWithAuth (w : World) (c : Connector) (host : Host) :
  (agent_signers w <> [] ->
   Connect w c host = ConnectWithAuth w c host AuthMethodSSHAgent) /\
  (agent_signers w = [] ->
   snd (buildClientConfigWithAuth w host AuthMethodKeyFile) = None ->
   Connect w c host = ConnectWithAuth w c host AuthMethodKeyFile) /\
  (agent_signers w = [] ->
   snd (buildClientConfigWithAuth w host AuthMethodKeyFile) <> None ->
   Connect w c host =
     (c, Some (wrapError "failed to build client config" authExhausted)) /\
   (exists e, ConnectWithAuth w c host AuthMethodSSHAgent =
                (c, Some (wrapError "failed to build client config" e))) /\
   (exists e, ConnectWithAuth w c host AuthMethodKeyFile =
                (c, Some (wrapError "failed to build client config" e)))).
Proof.
  unfold Connect, ConnectWithAuth.
  rewrite buildClientConfig_sources, withAuth_agent,
    (withAuth_keyFile w host (or_introl eq_refl)).
  pose proof (addSSHAgentAuth_signers w
                (mkClientConfig (User host) [] ssh_InsecureIgnoreHostKey)) as HA.
  pose proof (addKeyFileAuth_load w
                (mkClientConfig (User host) [] ssh_InsecureIgnoreHostKey)
                (Identity host)) as HK.
  destruct (agent_signers w) as [|s signers].
  - split; [intros H; now elim H|].
    destruct HA as [_ HA].
    destruct (snd (addSSHAgentAuth w _)) as [ea|]; [|now elim HA].
    destruct (String.eqb (Identity host) "").
    + destruct (loaded_signers w defaultKeys) as [|s l]; cbn [snd].
      * split; [discriminate|]. intros _ _.
        split; [reflexivity|]. split; eexists; reflexivity.
      * split; [reflexivity|]. intros _ H. now elim H.
    + destruct (load_signer w (Identity host)) as [signer|]; cbn [snd].
      * split; [reflexivity|]. intros _ H. now elim H.
      * destruct HK as [_ HK].
        destruct (snd (addKeyFileAuth w _ _)) as [ek|]; [|now elim HK].
        split; [discriminate|]. intros _ _.
        split; [reflexivity|]. split; eexists; reflexivity.
  - split; [reflexivity|]. split; discriminate.
Qed.

Lemma Connect_is_ConnectWithAuth_witness :
  Connect (Sample.world Sample.withAgent [] [Sample.adminKey] Sample.sshdOnly
             (Exited 0)) NewConnector Sample.admin
  = ConnectWithAuth
      (Sample.world Sample.withAgent [] [Sample.adminKey] Sample.sshdOnly
         (Exited 0)) NewConnector Sample.admin AuthMethodSSHAgent /\
  Connect (Sample.world [] Sample.rsaFile [] Sample.sshdOnly (Exited 0))
    NewConnector Sample.admin
  = ConnectWithAuth
      (Sample.world [] Sample.rsaFile [] Sample.sshdOnly (Exited 0))
      NewConnector Sample.admin AuthMethodKeyFile /\
  Connect Sample.bare NewConnector Sample.adminPinned =
    (NewConnector,
     Some (wrapError "failed to build client config" authExhausted)).
Proof.
  split; [|split].
  - apply (proj1 (Connect_is_ConnectWithAuth
                    (Sample.world Sample.withAgent [] [Sample.adminKey]
                       Sample.sshdOnly (Exited 0))
                    NewConnector Sample.admin)).
    discriminate.
  - apply (proj1 (proj2 (Connect_is_ConnectWithAuth
                    (Sample.world [] Sample.rsaFile [] Sample.sshdOnly
                       (Exited 0))
                    NewConnector Sample.admin))); reflexivity.
  - apply (proj2 (proj2 (Connect_is_ConnectWithAuth
                    Sample.bare NewConnector Sample.adminPinned)));
      [reflexivity | discriminate].
Defined.

(** ** The errors of the single methods *)

(** X7. The agent method at its edges. With SSH_AUTH_SOCK unset or
    empty it fails with "SSH_AUTH_SOCK not set" and contacts no agent. An
    agent that answers with no key and no error gives an error that wraps
    a nil cause, so its text ends in the formatter's mark for a missing
    operand. *)
Theorem agent_method_edges (w : World) (host : Host) :
  (os_Getenv w "SSH_AUTH_SOCK" = "" ->
   buildClientConfigWithAuth w host AuthMethodSSHAgent =
     (None, Some (errorString "SSH_AUTH_SOCK not set"))) /\
  (forall conn,
      os_Getenv w "SSH_AUTH_SOCK" <> "" ->
      net_Dial_unix w (os_Getenv w "SSH_AUTH_SOCK") = Ok conn ->
      agent_Signers w conn = Ok [] ->
      exists e,
        buildClientConfigWithAuth w host AuthMethodSSHAgent = (None, Some e) /\
        Error e = "no keys available from SSH agent: %!w(<nil>)").
Proof.
  split.
  - intros H. rewrite withAuth_agent. unfold agent_signers, addSSHAgentAuth.
    rewrite H. reflexivity.
  - intros conn Hsock Hdial Hsig.
    exists (wrapNil "no keys available from SSH agent").
    split; [|reflexivity].
    rewrite withAuth_agent. unfold agent_signers, addSSHAgentAuth.
    destruct (String.eqb_spec (os_Getenv w "SSH_AUTH_SOCK") "");
      [contradiction|].
    rewrite Hdial, Hsig. reflexivity.
Qed.

Lemma agent_method_edges_witness :
  buildClientConfigWithAuth Sample.bare Sample.admin AuthMethodSSHAgent =
    (None, Some (errorString "SSH_AUTH_SOCK not set")) /\
  exists e,
    buildClientConfigWithAuth
      (Sample.world Sample.withAgent Sample.rsaFile [] Sample.anyDial
         (Exited 0)) Sample.admin AuthMethodSSHAgent = (None, Some e) /\
    Error e = "no keys available from SSH agent: %!w(<nil>)".
Proof.
  split.
  - apply (proj1 (agent_method_edges Sample.bare Sample.admin)). reflexivity.
  - apply (proj2 (agent_method_edges
                    (Sample.world Sample.withAgent Sample.rsaFile []
                       Sample.anyDial (Exited 0)) Sample.admin)
             (mkAgentConn 1)); [discriminate | reflexivity | reflexivity].
Defined.

Lemma addKeyFileAuth_step_error (w : World) (config : ClientConfig)
    (keyPath : string) (e : error) :
  snd (addKeyFileAuth w config keyPath) = Some e ->
  identity_step_error w keyPath e.
Proof.
  unfold addKeyFileAuth, identity_step_error.
  destruct (expandPath w keyPath) as [expandedPath|cause] eqn:Hexp.
  - destruct (os_ReadFile w expandedPath) as [key|cause] eqn:Hread.
    + destruct (ssh_ParsePrivateKey w key) as [signer|cause] eqn:Hparse;
        [discriminate|].
      intros H. injection H as <-. right. right.
      exists expandedPath, key, cause. repeat split; assumption.
    + intros H. injection H as <-. right. left.
      exists expandedPath, cause. repeat split; assumption.
  - intros H. injection H as <-. left. exists cause. split; reflexivity.
Qed.

(** X8. With the key-file method and a host that names an identity
    file, a failure tells the step that failed and wraps its cause: the
    path did not expand, the file was not read, or the key did not
    parse. The default keys are not tried. *)
Theorem key_file_method_names_failed_step (w : World) (host : Host)
    (auth : AuthMethod) (e : error) :
  auth = AuthMethodKeyFile \/ auth = AuthMethodNone ->
  Identity host <> "" ->
  snd (buildClientConfigWithAuth w host auth) = Some e ->
  fst (buildClientConfigWithAuth w host auth) = None /\
  load_signer w (Identity host) = None /\
  identity_step_error w (Identity host) e.
Proof.
  intros Hauth Hid. rewrite (withAuth_keyFile w host Hauth).
  destruct (String.eqb_spec (Identity host) ""); [contradiction|].
  destruct (load_signer w (Identity host)) as [signer|]; [discriminate|].
  cbn [fst snd]. intros H. split; [reflexivity|]. split; [reflexivity|].
  now apply addKeyFileAuth_step_error in H.
Qed.

Lemma key_file_method_names_failed_step_witness :
  fst (buildClientConfigWithAuth
         (Sample.world [] Sample.rsaFile [] Sample.anyDial (Exited 0))
         Sample.adminPinned AuthMethodKeyFile) = None /\
  load_signer (Sample.world [] Sample.rsaFile [] Sample.anyDial (Exited 0))
    (Identity Sample.adminPinned) = None /\
  identity_step_error
    (Sample.world [] Sample.rsaFile [] Sample.anyDial (Exited 0))
    (Identity Sample.adminPinned)
    (wrapError "failed to read identity file" Sample.ENOENT).
Proof.
  apply (@key_file_method_names_failed_step
           (Sample.world [] Sample.rsaFile [] Sample.anyDial (Exited 0))
           Sample.adminPinned AuthMethodKeyFile).
  - left. reflexivity.
  - discriminate.
  - reflexivity.
Defined.

(** ** The earlier connector against the current one *)

(** The identity branch of the earlier resolver is the key-file
    collector of the current one, its error returned as it is. *)
Lemma Legacy_buildClientConfig_identity (w : World) (host : Host) :
  Identity host <> "" ->
  Legacy.buildClientConfig w host =
  match addKeyFileAuth w
          (mkClientConfig (User host) [] ssh_InsecureIgnoreHostKey)
          (Identity host) with
  | (_, Some err) => Err err
  | (cfg, None) => Ok cfg
  end.
Proof.
  intros Hid. unfold Legacy.buildClientConfig, addKeyFileAuth.
  destruct (String.eqb_spec (Identity host) ""); [contradiction|].
  cbn [negb].
  destruct (expandPath w (Identity host)) as [keyPath|]; [|reflexivity].
  destruct (os_ReadFile w keyPath) as [key|]; [|reflexivity].
  destruct (ssh_ParsePrivateKey w key); reflexivity.
Qed.

Lemma Legacy_buildClientConfig_default (w : World) (host : Host) :
  Identity host = "" ->
  Legacy.buildClientConfig w host =
  match loaded_signers w defaultKeys with
  | [] => Err authExhausted
  | signers =>
      Ok (mkClientConfig (User host) (map publicKey_auth signers)
            ssh_InsecureIgnoreHostKey)
  end.
Proof.
  intros Hid. unfold Legacy.buildClientConfig. rewrite Hid. cbn [String.eqb negb].
  pose proof (defaultKeys_loop_Auth w defaultKeys
                (mkClientConfig (User host) [] ssh_InsecureIgnoreHostKey)) as HA.
  pose proof (defaultKeys_loop_rest w defaultKeys
                (mkClientConfig (User host) [] ssh_InsecureIgnoreHostKey))
    as [HU HK].
  unfold defaultKeys_loop in HA, HU, HK.
  destruct (fold_left (defaultKeys_body w) defaultKeys _) as [u a k].
  cbn [Auth cfgUser HostKeyCallback_ app] in HA, HU, HK. subst u a k.
  destruct (loaded_signers w defaultKeys); reflexivity.
Qed.

(** X9. Where the agent yields nothing, the earlier resolver and the
    current one succeed on the same hosts and build the same
    configuration. *)
Theorem Legacy_agrees_without_agent (w : World) (host : Host)
    (cfg : ClientConfig) :
  agent_signers w = [] ->
  (buildClientConfig w host = Ok cfg <->
   Legacy.buildClientConfig w host = Ok cfg).
Proof.
  intros Hagent. rewrite buildClientConfig_sources, Hagent.
  destruct (String.eqb_spec (Identity host) "") as [Hid|Hid].
  - rewrite (@Legacy_buildClientConfig_default w host Hid).
    destruct (loaded_signers w defaultKeys); [|reflexivity].
    split; discriminate.
  - rewrite (@Legacy_buildClientConfig_identity w host Hid).
    pose proof (addKeyFileAuth_load w
                  (mkClientConfig (User host) [] ssh_InsecureIgnoreHostKey)
                  (Identity host)) as HK.
    destruct (load_signer w (Identity host)) as [signer|].
    + rewrite HK. reflexivity.
    + destruct HK as [_ HK].
      destruct (addKeyFileAuth w _ _) as [c [e|]]; [|now elim HK].
      split; discriminate.
Qed.

Lemma Legacy_agrees_without_agent_witness :
  buildClientConfig
    (Sample.world [] Sample.rsaFile [] Sample.anyDial (Exited 0)) Sample.admin
  = Ok (mkClientConfig "admin" [publicKey_auth Sample.rsaKey]
          ssh_InsecureIgnoreHostKey) <->
  Legacy.buildClientConfig
    (Sample.world [] Sample.rsaFile [] Sample.anyDial (Exited 0)) Sample.admin
  = Ok (mkClientConfig "admin" [publicKey_auth Sample.rsaKey]
          ssh_InsecureIgnoreHostKey).
Proof.
  apply (@Legacy_agrees_without_agent
           (Sample.world [] Sample.rsaFile [] Sample.anyDial (Exited 0))
           Sample.admin).
  reflexivity.
Defined.

(** X10. Where the two resolvers fail they differ. For a host that
    names an identity file, the earlier resolver returns the error of the
    step that failed, with its cause, where the current one returns the
    fixed exhaustion error; for a host that names none, both return the
    exhaustion error. Neither falls back to the default keys. *)
Theorem Legacy_failure_names_step (w : World) (host : Host) (e : error) :
  Legacy.buildClientConfig w host = Err e ->
  (Identity host <> "" ->
   identity_step_error w (Identity host) e /\ e <> authExhausted) /\
  (Identity host = "" ->
   e = authExhausted /\ loaded_signers w defaultKeys = []).
Proof.
  intros H. split; intros Hid.
  - rewrite (@Legacy_buildClientConfig_identity w host Hid) in H.
    destruct (addKeyFileAuth w _ _) as [c [e'|]] eqn:HK; [|discriminate].
    injection H as ->.
    assert (Hs : identity_step_error w (Identity host) e).
    { apply addKeyFileAuth_step_error
        with (config := mkClientConfig (User host) []
                          ssh_InsecureIgnoreHostKey).
      rewrite HK. reflexivity. }
    split; [exact Hs|].
    destruct Hs as [(c1 & _ & ->)|[(p & c1 & _ & _ & ->)
                                  |(p & k & c1 & _ & _ & _ & ->)]];
      discriminate.
  - rewrite (@Legacy_buildClientConfig_default w host Hid) in H.
    destruct (loaded_signers w defaultKeys); [|discriminate].
    injection H as <-. split; reflexivity.
Qed.

Lemma Legacy_failure_names_step_witness :
  (Identity Sample.adminPinned <> "" ->
   identity_step_error Sample.bare (Identity Sample.adminPinned)
     (wrapError "failed to read identity file" Sample.ENOENT) /\
   wrapError "failed to read identity file" Sample.ENOENT <> authExhausted) /\
  (Identity Sample.adminPinned = "" ->
   wrapError "failed to read identity file" Sample.ENOENT = authExhausted /\
   loaded_signers Sample.bare defaultKeys = []).
Proof.
  apply (@Legacy_failure_names_step Sample.bare Sample.adminPinned).
  reflexivity.
Defined.

(** ** The interactive session, phase by phase *)

Lemma Connect_ok_connector (w : World) (c c' : Connector) (host : Host) :
  Connect w c host = (c', None) ->
  exists cfg cl, c' = mkConnector (Some cl) (Some cfg).
Proof.
  unfold Connect, dialWith.
  destruct (buildClientConfig w host) as [cfg|e]; [|discriminate].
  destruct (ssh_Dial w _ cfg) as [cl|e]; [|discriminate].
  intros H. injection H as <-. exists cfg, cl. reflexivity.
Qed.

(** X11. [ConnectAndInteract] returns nil exactly when every phase
    succeeded and the remote process left with status 0: [Connect] gave
    a client, the session opened, the pseudo terminal was granted for an
    xterm of the size [getTerminalSize] reports (rows first, then
    columns), the shell started, and the wait ended without error. *)
Theorem ConnectAndInteract_nil_iff (w : World) (host : Host) :
  ConnectAndInteract w host = None <->
  exists cfg cl session,
    Connect w NewConnector host = (mkConnector (Some cl) (Some cfg), None) /\
    client_NewSession w cl = Ok session /\
    session_RequestPty w session "xterm" (snd (getTerminalSize w))
      (fst (getTerminalSize w)) modes = None /\
    session_Shell w session = None /\
    session_outcome w session = Exited 0.
Proof.
  unfold ConnectAndInteract.
  destruct (Connect w NewConnector host) as [c' [e|]] eqn:HC.
  - split; [discriminate|]. intros (cfg & cl & s & H & _). discriminate.
  - destruct (Connect_ok_connector w NewConnector host HC)
      as (cfg & cl & ->).
    cbn [client].
    destruct (client_NewSession w cl) as [session|e] eqn:HS.
    2: { split; [discriminate|].
         intros (cfg' & cl' & s & H & Hs & _).
         injection H as <- <-. rewrite HS in Hs. discriminate. }
    destruct (getTerminalSize w) as [width height]. cbn [fst snd].
    destruct (session_RequestPty w session "xterm" height width modes)
      as [e|] eqn:HP.
    { split; [discriminate|].
      intros (cfg' & cl' & s & H & Hs & Hp & _).
      injection H as <- <-. rewrite HS in Hs. injection Hs as <-.
      rewrite HP in Hp. discriminate. }
    destruct (session_Shell w session) as [e|] eqn:HSh.
    { split; [discriminate|].
      intros (cfg' & cl' & s & H & Hs & _ & Hsh & _).
      injection H as <- <-. rewrite HS in Hs. injection Hs as <-.
      rewrite HSh in Hsh. discriminate. }
    split.
    + intros HW. exists cfg, cl, session. repeat split; try assumption.
      destruct (session_outcome w session) as [status| |e]; try discriminate.
      cbn in HW. destruct (Z.eqb_spec status 0); [now subst|discriminate].
    + intros (cfg' & cl' & s & H & Hs & _ & _ & Ho).
      injection H as <- <-. rewrite HS in Hs. injection Hs as <-.
      rewrite Ho. reflexivity.
Qed.

(** X12. A non-nil result of [ConnectAndInteract] tells its phase. It
    is the error of [Connect], passed on as it is; or "failed to create
    session", "request for pseudo terminal failed" or "failed to start
    shell" wrapping the cause the library gave; or, once the shell runs,
    the error of the wait, passed on as it is. *)
Theorem ConnectAndInteract_failure_phase (w : World) (host : Host)
    (e : error) :
  ConnectAndInteract w host = Some e ->
  snd (Connect w NewConnector host) = Some e \/
  exists cfg cl,
    Connect w NewConnector host = (mkConnector (Some cl) (Some cfg), None) /\
    ((exists cause,
         client_NewSession w cl = Err cause /\
         e = wrapError "failed to create session" cause) \/
     exists session,
       client_NewSession w cl = Ok session /\
       ((exists cause,
            session_RequestPty w session "xterm" (snd (getTerminalSize w))
              (fst (getTerminalSize w)) modes = Some cause /\
            e = wrapError "request for pseudo terminal failed" cause) \/
        (exists cause,
            session_Shell w session = Some cause /\
            e = wrapError "failed to start shell" cause) \/
        (session_Shell w session = None /\
         session_Wait (session_outcome w session) = Some e))).
Proof.
  unfold ConnectAndInteract.
  destruct (Connect w NewConnector host) as [c' [e'|]] eqn:HC.
  - intros H. left. exact H.
  - destruct (Connect_ok_connector w NewConnector host HC) as (cfg & cl & ->).
    cbn [client]. intros H. right. exists cfg, cl. split; [reflexivity|].
    destruct (client_NewSession w cl) as [session|cause].
    2: { left. exists cause. injection H as <-. split; reflexivity. }
    right. exists session. split; [reflexivity|].
    destruct (getTerminalSize w) as [width height]. cbn [fst snd].
    destruct (session_RequestPty w session "xterm" height width modes)
      as [cause|].
    { left. exists cause. injection H as <-. split; reflexivity. }
    right.
    destruct (session_Shell w session) as [cause|].
    { left. exists cause. injection H as <-. split; reflexivity. }
    right. split; [reflexivity | exact H].
Qed.

Lemma ConnectAndInteract_failure_phase_witness :
  snd (Connect (Sample.world [] Sample.rsaFile [] Sample.refuse (Exited 0))
         NewConnector Sample.admin)
  = Some (wrapError "failed to connect to 203.0.113.5:22"
            Sample.ECONNREFUSED) \/
  exists cfg cl,
    Connect (Sample.world [] Sample.rsaFile [] Sample.refuse (Exited 0))
      NewConnector Sample.admin = (mkConnector (Some cl) (Some cfg), None) /\
    ((exists cause,
         client_NewSession
           (Sample.world [] Sample.rsaFile [] Sample.refuse (Exited 0)) cl
         = Err cause /\
         wrapError "failed to connect to 203.0.113.5:22" Sample.ECONNREFUSED
         = wrapError "failed to create session" cause) \/
     exists session,
       client_NewSession
         (Sample.world [] Sample.rsaFile [] Sample.refuse (Exited 0)) cl
       = Ok session /\
       ((exists cause,
            session_RequestPty
              (Sample.world [] Sample.rsaFile [] Sample.refuse (Exited 0))
              session "xterm"
              (snd (getTerminalSize
                      (Sample.world [] Sample.rsaFile [] Sample.refuse
                         (Exited 0))))
              (fst (getTerminalSize
                      (Sample.world [] Sample.rsaFile [] Sample.refuse
                         (Exited 0)))) modes = Some cause /\
            wrapError "failed to connect to 203.0.113.5:22"
              Sample.ECONNREFUSED
            = wrapError "request for pseudo terminal failed" cause) \/
        (exists cause,
            session_Shell
              (Sample.world [] Sample.rsaFile [] Sample.refuse (Exited 0))
              session = Some cause /\
            wrapError "failed to connect to 203.0.113.5:22"
              Sample.ECONNREFUSED
            = wrapError "failed to start shell" cause) \/
        (session_Shell
           (Sample.world [] Sample.rsaFile [] Sample.refuse (Exited 0))
           session = None /\
         session_Wait
           (session_outcome
              (Sample.world [] Sample.rsaFile [] Sample.refuse (Exited 0))
              session)
         = Some (wrapError "failed to connect to 203.0.113.5:22"
                   Sample.ECONNREFUSED)))).
Proof.
  apply (@ConnectAndInteract_failure_phase
           (Sample.world [] Sample.rsaFile [] Sample.refuse (Exited 0))
           Sample.admin).
  reflexivity.
Defined.

(** X13. [ConnectAndInteract] gives back what it opened, on every
    return path. When [Connect] fails nothing was opened and nothing is
    closed. When the session cannot be created the client is closed.
    Otherwise, however the session ends (pseudo terminal refused, shell
    not started, wait over), the session is closed first and the client
    after it. The error returned is the one of [ConnectAndInteract]. *)
Theorem ConnectAndInteract_releases (w : World) (host : Host) :
  snd (ConnectAndInteract_events w host) = ConnectAndInteract w host /\
  ((fst (ConnectAndInteract_events w host) = [] /\
    snd (Connect w NewConnector host) <> None) \/
   (exists cl,
       fst (ConnectAndInteract_events w host)
       = [ClientOpened cl; ClientClosed cl] /\
       client (fst (Connect w NewConnector host)) = Some cl /\
       exists cause, client_NewSession w cl = Err cause) \/
   (exists cl session,
       fst (ConnectAndInteract_events w host)
       = [ClientOpened cl; SessionOpened session;
          SessionClosed session; ClientClosed cl] /\
       client (fst (Connect w NewConnector host)) = Some cl /\
       client_NewSession w cl = Ok session)).
Proof.
  unfold ConnectAndInteract_events, ConnectAndInteract.
  destruct (Connect w NewConnector host) as [c' [e|]] eqn:HC.
  - assert (c' = NewConnector) as ->.
    { revert HC. unfold Connect, dialWith.
      destruct (buildClientConfig w host) as [cfg|e0].
      - destruct (ssh_Dial w _ cfg); [discriminate|].
        intros H. now injection H as <- _.
      - intros H. now injection H as <- _. }
    cbn. split; [reflexivity|]. left. split; [reflexivity | discriminate].
  - destruct (Connect_ok_connector w NewConnector host HC) as (cfg & cl & ->).
    cbn [client fst snd Close_events].
    destruct (client_NewSession w cl) as [session|cause] eqn:HS.
    + destruct (getTerminalSize w) as [width height].
      destruct (session_RequestPty w session "xterm" height width modes);
        [|destruct (session_Shell w session)];
        (split; [reflexivity|]); right; right;
        exists cl, session; repeat split; exact HS.
    + split; [reflexivity|]. right. left. exists cl.
      split; [reflexivity|]. split; [reflexivity|]. exists cause. exact HS.
Qed.

(** * The application shell *)

Lemma handleKeyMsg_cases (m : TUI.App) (key : string) :
  (key = "q" \/ key = "ctrl+c") /\
  TUI.handleKeyMsg m key
  = (TUI.mkApp (TUI.view m) true (TUI.err m), Some TUI.Quit) \/
  (key <> "q" /\ key <> "ctrl+c") /\
  snd (TUI.handleKeyMsg m key) = None /\
  TUI.quitting (fst (TUI.handleKeyMsg m key)) = TUI.quitting m /\
  TUI.err (fst (TUI.handleKeyMsg m key)) = TUI.err m /\
  (key = "a" /\ TUI.view (fst (TUI.handleKeyMsg m key)) = "add" \/
   key = "e" /\ TUI.view (fst (TUI.handleKeyMsg m key)) = "edit" \/
   key = "d" /\ TUI.view (fst (TUI.handleKeyMsg m key)) = "detail" \/
   key = "esc" /\ TUI.view (fst (TUI.handleKeyMsg m key)) = "list" \/
   (key <> "a" /\ key <> "e" /\ key <> "d" /\ key <> "esc") /\
   fst (TUI.handleKeyMsg m key) = m).
Proof.
  unfold TUI.handleKeyMsg.
  destruct (String.eqb_spec key "q") as [->|Hq];
    [left; split; [now left | reflexivity]|].
  destruct (String.eqb_spec key "ctrl+c") as [->|Hc];
    [left; split; [now right | reflexivity]|].
  right. split; [now split|]. cbn [orb].
  destruct (String.eqb_spec key "a") as [->|Ha];
    [repeat split; left; now split|].
  destruct (String.eqb_spec key "e") as [->|He];
    [repeat split; right; left; now split|].
  destruct (String.eqb_spec key "d") as [->|Hd];
    [repeat split; right; right; left; now split|].
  destruct (String.eqb_spec key "esc") as [->|Hesc];
    [repeat split; right; right; right; left; now split|].
  repeat split; right; right; right; right; repeat split; assumption.
Qed.

(** X14. Starting from [New], whatever messages arrive, the view name
    is one of list, add, edit and detail and the error stays unset; so
    [View] never shows the error screen and shows the screen that the
    view names. *)
Theorem App_view_stays_known (msgs : list TUI.Msg) :
  let m := TUI.run TUI.New msgs in
  In (TUI.view m) ["list"; "add"; "edit"; "detail"] /\
  TUI.err m = None /\
  (forall text, TUI.View m <> TUI.ErrorScreen text) /\
  (TUI.View m = TUI.ListScreen <-> TUI.view m = "list") /\
  (TUI.View m = TUI.AddScreen <-> TUI.view m = "add") /\
  (TUI.View m = TUI.EditScreen <-> TUI.view m = "edit") /\
  (TUI.View m = TUI.DetailScreen <-> TUI.view m = "detail").
Proof.
  cbv zeta.
  assert (Hinv : forall m,
             In (TUI.view m) ["list"; "add"; "edit"; "detail"] /\
             TUI.err m = None ->
             In (TUI.view (TUI.run m msgs)) ["list"; "add"; "edit"; "detail"]
             /\ TUI.err (TUI.run m msgs) = None).
  { unfold TUI.run. induction msgs as [|msg msgs IH]; intros m Hm.
    - exact Hm.
    - cbn [fold_left]. apply IH. destruct Hm as [Hv He].
      destruct msg as [key| |]; cbn [TUI.Update fst]; [|now split|now split].
      destruct (handleKeyMsg_cases m key)
        as [[_ ->]|(_ & _ & _ & -> & [(_ & ->)|[(_ & ->)|[(_ & ->)
                                       |[(_ & ->)|(_ & ->)]]]])];
        cbn; tauto. }
  destruct (Hinv TUI.New) as [Hv He]; [cbn; tauto|].
  split; [exact Hv|]. split; [exact He|].
  unfold TUI.View. rewrite He.
  cbn in Hv. destruct Hv as [Hv|[Hv|[Hv|[Hv|[]]]]]; rewrite <- Hv; cbn;
    repeat split; try discriminate; try reflexivity; intros; discriminate.
Qed.


(** * The host form *)

Lemma field_loop_absent (step : Z -> Z) (field : string)
    (rest : list string) :
  forall i, ~ In field rest -> Form.field_loop step field i rest = field.
Proof.
  induction rest as [|f rest IH]; intros i Hnot; [reflexivity|].
  cbn [Form.field_loop].
  destruct (String.eqb_spec field f) as [->|_].
  - elim Hnot. now left.
  - apply IH. intros Hin. apply Hnot. now right.
Qed.

(** X16. Moving through the form. From each of the seven fields,
    [nextField] and [prevField] lead to a field of the form and undo each
    other; they wrap around, group being followed by name; seven steps
    forward come back to the start. A current field that is not one of
    the seven is left alone by both. *)
Theorem form_fields_cycle (field : string) :
  (In field Form.fields ->
   In (Form.nextField field) Form.fields /\
   In (Form.prevField field) Form.fields /\
   Form.prevField (Form.nextField field) = field /\
   Form.nextField (Form.prevField field) = field /\
   Nat.iter 7 Form.nextField field = field) /\
  (~ In field Form.fields ->
   Form.nextField field = field /\ Form.prevField field = field) /\
  Form.nextField "group" = "name" /\
  Form.prevField "name" = "group".
Proof.
  split; [|split; [|split; reflexivity]].
  - intros Hin. cbn in Hin.
    destruct Hin as [<-|[<-|[<-|[<-|[<-|[<-|[<-|[]]]]]]]];
      (split; [cbn; tauto|]); (split; [cbn; tauto|]);
      repeat split; reflexivity.
  - intros Hnot. split; apply field_loop_absent; exact Hnot.
Qed.

Lemma form_fields_cycle_witness :
  (In (Form.nextField "port") Form.fields /\
   In (Form.prevField "port") Form.fields /\
   Form.prevField (Form.nextField "port") = "port" /\
   Form.nextField (Form.prevField "port") = "port" /\
   Nat.iter 7 Form.nextField "port" = "port") /\
  (Form.nextField "tags" = "tags" /\ Form.prevField "tags" = "tags").
Proof.
  split.
  - apply (proj1 (form_fields_cycle "port")). cbn. tauto.
  - apply (proj1 (proj2 (form_fields_cycle "tags"))).
    cbn. intros H. repeat (destruct H as [H|H]; [discriminate H|]). exact H.
Defined.

(** ** The port field *)

Lemma digits_value_acc (d : Decimal.uint) :
  forall p,
    digits_value (Z.pos p) (NilEmpty.string_of_uint d)
    = Some (Z.pos (Pos.of_uint_acc d p)).
Proof.
  induction d; intros p; cbn [NilEmpty.string_of_uint Pos.of_uint_acc];
    [reflexivity| ..];
    cbn [digits_value]; change (is_digit _) with true; cbv iota;
    rewrite <- IHd; f_equal;
    match goal with
    | |- context [Z.of_nat (nat_of_ascii ?ch)] =>
        let v := eval vm_compute in (Z.of_nat (nat_of_ascii ch)) in
        change (Z.of_nat (nat_of_ascii ch)) with v
    end; lia.
Qed.

Lemma digits_value_of_uint (d : Decimal.uint) :
  digits_value 0 (NilEmpty.string_of_uint d) = Some (Z.of_N (Pos.of_uint d)).
Proof.
  induction d; cbn [NilEmpty.string_of_uint Pos.of_uint];
    [reflexivity | exact IHd | ..];
    cbn [digits_value]; change (is_digit _) with true; cbv iota;
    cbn [Z.of_N]; rewrite <- digits_value_acc; f_equal.
Qed.

Lemma digits_value_to_uint (p : positive) :
  NilZero.string_of_uint (Pos.to_uint p)
  = NilEmpty.string_of_uint (Pos.to_uint p) /\
  digits_value 0 (NilEmpty.string_of_uint (Pos.to_uint p)) = Some (Z.pos p) /\
  exists ch rest,
    NilEmpty.string_of_uint (Pos.to_uint p) = String ch rest /\
    Ascii.eqb ch "-" = false /\ Ascii.eqb ch "+" = false.
Proof.
  pose proof (Unsigned.to_uint_nonnil p) as Hnil.
  pose proof (DecimalPos.Unsigned.of_to p) as Hof.
  rewrite digits_value_of_uint, Hof.
  destruct (Pos.to_uint p); [now elim Hnil| ..];
    (split; [reflexivity|]); (split; [reflexivity|]);
    cbn [NilEmpty.string_of_uint]; eexists; eexists;
    (split; [reflexivity|]); split; reflexivity.
Qed.

(** The decimal text of an int is read back by [strconv.Atoi]. *)
Lemma Atoi_itoa (n : Z) :
  (min_int <= n <= max_int)%Z -> strconv_Atoi (itoa n) = Some n.
Proof.
  intros Hrange.
  assert (Hin : ((min_int <=? n)%Z && (n <=? max_int)%Z) = true).
  { apply andb_true_iff. split; apply Z.leb_le; lia. }
  unfold itoa. destruct n as [|p|p]; [reflexivity| |].
  - cbn [Z.to_int NilZero.string_of_int].
    destruct (digits_value_to_uint p) as (-> & Hval & ch & rest & Hs & Hm & Hp).
    rewrite Hs in *. unfold strconv_Atoi. rewrite Hm, Hp. cbn [orb].
    rewrite Hval. cbv zeta. cbv iota. rewrite Hin. reflexivity.
  - cbn [Z.to_int NilZero.string_of_int].
    destruct (digits_value_to_uint p) as (-> & Hval & ch & rest & Hs & Hm & Hp).
    rewrite Hs in *. unfold strconv_Atoi.
    change (Ascii.eqb "-" "-") with true. cbn [orb]. cbv zeta.
    rewrite Hval. cbv iota. change (- Z.pos p)%Z with (Z.neg p).
    rewrite Hin. reflexivity.
Qed.

(** X17. The port survives the form, with one exception. The port text
    the form starts from is the decimal text of the port of the host;
    when it is saved unchanged, the port stored is the same number, be it
    negative or above 65535 (the form checks no range), except that a
    port of 0 is stored as 22. *)
Theorem form_port_round_trip (n : Z) :
  (min_int <= n <= max_int)%Z ->
  strconv_Atoi (itoa n) = Some n /\
  EditView_save_port (itoa n) = Some (if (n =? 0)%Z then 22%Z else n).
Proof.
  intros H. pose proof (Atoi_itoa H) as HA. split; [exact HA|].
  unfold EditView_save_port. rewrite HA. reflexivity.
Qed.

Lemma form_port_round_trip_witness :
  (strconv_Atoi (itoa 70000) = Some 70000%Z /\
   EditView_save_port (itoa 70000) = Some 70000%Z) /\
  (strconv_Atoi (itoa (-1)) = Some (-1)%Z /\
   EditView_save_port (itoa (-1)) = Some (-1)%Z) /\
  (strconv_Atoi (itoa 0) = Some 0%Z /\
   EditView_save_port (itoa 0) = Some 22%Z).
Proof.
  split; [|split].
  - apply (@form_port_round_trip 70000). unfold min_int, max_int. lia.
  - apply (@form_port_round_trip (-1)). unfold min_int, max_int. lia.
  - apply (@form_port_round_trip 0). unfold min_int, max_int. lia.
Defined.

(** X18. What the form lets through. [save] stores a record exactly
    when name, host and user are not empty and the port text is a decimal
    integer; identity, proxy and group are not looked at. The port stored
    is then the integer read, with 22 in place of 0: the form never stores
    port 0. *)
Theorem form_save_port_iff (values : string -> string) (port : Z) :
  (Form.save_port values = Some port <->
   values "name" <> "" /\ values "host" <> "" /\ values "user" <> "" /\
   exists n, strconv_Atoi (values "port") = Some n /\
             port = if (n =? 0)%Z then 22%Z else n) /\
  (Form.save_port values = Some port -> port <> 0%Z) /\
  (Form.validate values = [] <-> Form.save_port values <> None).
Proof.
  assert (Hiff : Form.save_port values = Some port <->
                 values "name" <> "" /\ values "host" <> "" /\
                 values "user" <> "" /\
                 exists n, strconv_Atoi (values "port") = Some n /\
                           port = if (n =? 0)%Z then 22%Z else n).
  { unfold Form.save_port, Form.validate, EditView_save_port,
      Form.fieldName, Form.fieldHost, Form.fieldPort, Form.fieldUser.
    destruct (String.eqb_spec (values "name") "") as [Hn|Hn].
    { cbn. split; [discriminate | tauto]. }
    destruct (String.eqb_spec (values "host") "") as [Hh|Hh].
    { cbn. split; [discriminate | tauto]. }
    destruct (String.eqb_spec (values "port") "") as [Hp|Hp].
    { cbn. split; [discriminate|]. intros (_ & _ & _ & n & Hn' & _).
      rewrite Hp in Hn'. discriminate. }
    destruct (strconv_Atoi (values "port")) as [n|].
    2: { cbn. split; [discriminate|]. intros (_ & _ & _ & n & Hn' & _).
         discriminate. }
    destruct (String.eqb_spec (values "user") "") as [Hu|Hu].
    { cbn. split; [discriminate | tauto]. }
    cbn. split.
    - intros H. injection H as <-. repeat split; try assumption.
      exists n. split; reflexivity.
    - intros (_ & _ & _ & n' & Hn' & ->). injection Hn' as ->. reflexivity. }
  split; [exact Hiff|]. split.
  - intros H. apply Hiff in H. destruct H as (_ & _ & _ & n & _ & ->).
    destruct (Z.eqb_spec n 0); [discriminate | assumption].
  - unfold Form.save_port.
    destruct (Form.validate values) as [|e l] eqn:Hv; cbn.
    + split; [|reflexivity]. intros _.
      revert Hv. unfold Form.validate, EditView_save_port,
        Form.fieldName, Form.fieldHost, Form.fieldPort, Form.fieldUser.
      destruct (String.eqb (values "name") ""); [discriminate|].
      destruct (String.eqb (values "host") ""); [discriminate|].
      destruct (String.eqb (values "port") ""); [discriminate|].
      destruct (strconv_Atoi (values "port")); discriminate.
    + split; [discriminate|]. intros H. now elim H.
Qed.

Lemma form_save_port_iff_witness :
  (Form.save_port
     (fun f => if String.eqb f "port" then "0" else "x") = Some 22%Z <->
   (fun f => if String.eqb f "port" then "0" else "x") "name" <> "" /\
   (fun f => if String.eqb f "port" then "0" else "x") "host" <> "" /\
   (fun f => if String.eqb f "port" then "0" else "x") "user" <> "" /\
   exists n,
     strconv_Atoi ((fun f => if String.eqb f "port" then "0" else "x") "port")
     = Some n /\
     22%Z = if (n =? 0)%Z then 22%Z else n) /\
  22%Z <> 0%Z.
Proof.
  pose proof (form_save_port_iff
                (fun f => if String.eqb f "port" then "0" else "x") 22)
    as (Hiff & Hnz & _).
  split; [exact Hiff|]. apply Hnz. reflexivity.
Defined.

(** * The host store *)

Section StoreFacts.

Import Store.

Lemma find_add (m : HostMap.t Host) (k id : string) (h : Host) :
  HostMap.find id (HostMap.add k h m) =
  if String.eqb k id then Some h else HostMap.find id m.
Proof.
  rewrite HostMapFacts.add_o.
  destruct (String_as_OT.eq_dec k id) as [->|Hne].
  - now rewrite String.eqb_refl.
  - destruct (String.eqb_spec k id); [contradiction | reflexivity].
Qed.

Lemma find_remove (m : HostMap.t Host) (k id : string) :
  HostMap.find id (HostMap.remove k m) =
  if String.eqb k id then None else HostMap.find id m.
Proof.
  rewrite HostMapFacts.remove_o.
  destruct (String_as_OT.eq_dec k id) as [->|Hne].
  - now rewrite String.eqb_refl.
  - destruct (String.eqb_spec k id); [contradiction | reflexivity].
Qed.

Lemma mem_find (m : HostMap.t Host) (id : string) :
  HostMap.mem id m = match HostMap.find id m with
                     | Some _ => true
                     | None => false
                     end.
Proof. apply HostMapFacts.mem_find_b. Qed.

Lemma cardinal_add_fresh (m : HostMap.t Host) (k : string) (h : Host) :
  HostMap.mem k m = false ->
  HostMap.cardinal (HostMap.add k h m) = S (HostMap.cardinal m).
Proof.
  intros Hmem. apply HostMapProps.cardinal_2 with (x := k) (e := h).
  - now apply HostMapFacts.not_mem_in_iff.
  - intros y. reflexivity.
Qed.

Lemma cardinal_remove_present (m : HostMap.t Host) (k : string) :
  HostMap.mem k m = true ->
  S (HostMap.cardinal (HostMap.remove k m)) = HostMap.cardinal m.
Proof.
  intros Hmem. rewrite mem_find in Hmem.
  destruct (HostMap.find k m) as [h|] eqn:Hfind; [|discriminate].
  symmetry. apply HostMapProps.cardinal_2 with (x := k) (e := h).
  - rewrite HostMapFacts.remove_in_iff. intros [Hne _]. now elim Hne.
  - intros y. rewrite HostMapFacts.add_o, HostMapFacts.remove_o.
    destruct (String_as_OT.eq_dec k y) as [<-|_]; [exact Hfind | reflexivity].
Qed.

Lemma cardinal_add_present (m : HostMap.t Host) (k : string) (h : Host) :
  HostMap.mem k m = true ->
  HostMap.cardinal (HostMap.add k h m) = HostMap.cardinal m.
Proof.
  intros Hmem. rewrite <- (@cardinal_remove_present m k Hmem).
  apply HostMapProps.cardinal_2 with (x := k) (e := h).
  - rewrite HostMapFacts.remove_in_iff. intros [Hne _]. now elim Hne.
  - intros y. rewrite !HostMapFacts.add_o, HostMapFacts.remove_o.
    destruct (String_as_OT.eq_dec k y); reflexivity.
Qed.

(** The map [load] builds from the list of the file. *)
Lemma find_loaded (hostList : list Host) (id : string) :
  forall m,
    HostMap.find id
      (fold_left (fun m host => HostMap.add (ID host) host m) hostList m)
    = match find (fun host => String.eqb (ID host) id) (rev hostList) with
      | Some host => Some host
      | None => HostMap.find id m
      end.
Proof.
  induction hostList as [|h l IH]; intros m; [reflexivity|].
  cbn [fold_left rev]. rewrite IH, find_add.
  assert (Happ : forall (xs ys : list Host),
             find (fun host => String.eqb (ID host) id) (xs ++ ys)%list
             = match find (fun host => String.eqb (ID host) id) xs with
               | Some host => Some host
               | None => find (fun host => String.eqb (ID host) id) ys
               end).
  { induction xs as [|x xs IHx]; intros ys; cbn; [reflexivity|].
    destruct (String.eqb (ID x) id); [reflexivity | apply IHx]. }
  rewrite Happ. cbn [find].
  destruct (find _ (rev l)); [reflexivity|].
  destruct (String.eqb (ID h) id); reflexivity.
Qed.

Lemma cardinal_loaded (hostList : list Host) :
  forall m,
    (HostMap.cardinal
       (fold_left (fun m host => HostMap.add (ID host) host m) hostList m)
     <= HostMap.cardinal m + List.length hostList)%nat.
Proof.
  induction hostList as [|h l IH]; intros m; cbn [fold_left List.length];
    [lia|].
  specialize (IH (HostMap.add (ID h) h m)).
  destruct (HostMap.mem (ID h) m) eqn:Hmem.
  - rewrite (@cardinal_add_present m (ID h) h Hmem) in IH. lia.
  - rewrite (@cardinal_add_fresh m (ID h) h Hmem) in IH. lia.
Qed.

End StoreFacts.

(** X19. Every host of the store sits under its own identifier. This
    holds for the store [NewFileStore] builds, whatever the file holds,
    and [AddHost], [UpdateHost] and [DeleteHost] keep it, whether the
    write to the file succeeds or not. So a host that [GetHost] returns
    for an identifier carries that identifier. *)
Theorem store_keyed_by_ID (d : Store.Disk) :
  (forall path, Store.keyed_by_ID (Store.NewFileStore d path)) /\
  (forall s host uuid,
      Store.keyed_by_ID s ->
      Store.keyed_by_ID (fst (Store.AddHost d s host uuid))) /\
  (forall s host,
      Store.keyed_by_ID s -> Store.keyed_by_ID (fst (Store.UpdateHost d s host)))
  /\
  (forall s id,
      Store.keyed_by_ID s -> Store.keyed_by_ID (fst (Store.DeleteHost d s id)))
  /\
  (forall s id host,
      Store.keyed_by_ID s -> Store.GetHost s id = Ok host -> ID host = id).
Proof.
  assert (Hadd : forall m k h,
             ID h = k ->
             (forall id host, HostMap.find id m = Some host -> ID host = id) ->
             forall id host,
               HostMap.find id (HostMap.add k h m) = Some host -> ID host = id).
  { intros m k h Hk Hm id host. rewrite find_add.
    destruct (String.eqb_spec k id) as [<-|_]; [|apply Hm].
    intros H. now injection H as <-. }
  split; [|split; [|split; [|split]]].
  - intros path. unfold Store.NewFileStore, Store.load, Store.keyed_by_ID.
    cbn [Store.path].
    assert (Hempty : forall id host,
               HostMap.find id (HostMap.empty Host) = Some host ->
               ID host = id).
    { intros id host. rewrite HostMapFacts.empty_o. discriminate. }
    destruct (Store.os_ReadFile d path) as [|e|data]; cbn [fst negb Store.hosts Store.path]; try exact Hempty.
    destruct (Store.json_Unmarshal d data) as [hostList|e]; cbn [fst negb Store.hosts Store.path];
      [|exact Hempty].
    generalize (HostMap.empty Host) Hempty.
    induction hostList as [|h l IH]; intros m Hm; cbn [fold_left];
      [exact Hm|].
    apply IH. now apply Hadd.
  - intros s host uuid Hs. unfold Store.AddHost.
    destruct (String.eqb_spec (ID host) "") as [Hid|Hid]; cbn [ID].
    + destruct (HostMap.mem uuid (Store.hosts s)); [exact Hs|].
      unfold Store.keyed_by_ID. cbn [fst negb Store.hosts Store.path]. now apply Hadd.
    + destruct (HostMap.mem (ID host) (Store.hosts s)); [exact Hs|].
      unfold Store.keyed_by_ID. cbn [fst negb Store.hosts Store.path]. now apply Hadd.
  - intros s host Hs. unfold Store.UpdateHost.
    destruct (String.eqb (ID host) ""); [exact Hs|].
    destruct (HostMap.mem (ID host) (Store.hosts s)); [|exact Hs].
    unfold Store.keyed_by_ID. cbn [fst negb Store.hosts Store.path]. now apply Hadd.
  - intros s id Hs. unfold Store.DeleteHost.
    destruct (HostMap.mem id (Store.hosts s)); [|exact Hs].
    unfold Store.keyed_by_ID. cbn [fst negb Store.hosts Store.path]. intros id' host. rewrite find_remove.
    destruct (String.eqb id id'); [discriminate | apply Hs].
  - intros s id host Hs. unfold Store.GetHost.
    destruct (HostMap.find id (Store.hosts s)) as [h|] eqn:Hf; [|discriminate].
    intros H. injection H as <-. now apply Hs.
Qed.

Lemma store_keyed_by_ID_witness :
  ID Sample.admin = "h1".
Proof.
  apply (proj2 (proj2 (proj2 (proj2 (store_keyed_by_ID Store.blank))))
           (fst (Store.AddHost Store.blank
                   (Store.NewFileStore Store.blank "/home/admin/.sshm.json")
                   Sample.admin "u-1"))
           "h1" Sample.admin).
  - apply (proj1 (proj2 (store_keyed_by_ID Store.blank))).
    apply (proj1 (store_keyed_by_ID Store.blank)).
  - reflexivity.
Defined.

(** X20. Adding a host. A host with an identifier not yet in the store
    is kept under it: [GetHost] returns it, the other identifiers answer
    as before, the count grows by one, and the error returned is that of
    writing the file, so a failed write leaves the host in the store. A
    host without identifier is kept under the generated one and carries
    it. A host whose identifier is taken is refused with "host already
    exists" and the store stays as it was. *)
Theorem AddHost_then_GetHost (d : Store.Disk) (s : Store.FileStore)
    (host : Host) (uuid : string) :
  (ID host <> "" ->
   HostMap.mem (ID host) (Store.hosts s) = false ->
   Store.GetHost (fst (Store.AddHost d s host uuid)) (ID host) = Ok host /\
   (forall id, id <> ID host ->
      Store.GetHost (fst (Store.AddHost d s host uuid)) id
      = Store.GetHost s id) /\
   Store.Count (fst (Store.AddHost d s host uuid)) = S (Store.Count s) /\
   snd (Store.AddHost d s host uuid)
   = Store.save d (fst (Store.AddHost d s host uuid))) /\
  (ID host = "" ->
   HostMap.mem uuid (Store.hosts s) = false ->
   Store.GetHost (fst (Store.AddHost d s host uuid)) uuid
   = Ok (mkHost uuid (Name host) (Host_ host) (Port host) (User host)
           (Identity host) (Proxy host) (Tags host)) /\
   Store.Count (fst (Store.AddHost d s host uuid)) = S (Store.Count s)) /\
  (ID host <> "" ->
   HostMap.mem (ID host) (Store.hosts s) = true ->
   Store.AddHost d s host uuid = (s, Some Store.ErrHostExists)).
Proof.
  unfold Store.AddHost, Store.GetHost, Store.Count.
  split; [|split].
  - intros Hid Hmem.
    destruct (String.eqb_spec (ID host) ""); [contradiction|].
    rewrite Hmem. cbn [fst snd Store.hosts].
    split; [now rewrite find_add, String.eqb_refl|].
    split; [|split; [now apply cardinal_add_fresh | reflexivity]].
    intros id Hne. rewrite find_add.
    destruct (String.eqb_spec (ID host) id); [now elim Hne | reflexivity].
  - intros Hid Hmem. rewrite Hid. cbn [String.eqb ID].
    rewrite Hmem. cbn [fst Store.hosts].
    split; [now rewrite find_add, String.eqb_refl|].
    now apply cardinal_add_fresh.
  - intros Hid Hmem.
    destruct (String.eqb_spec (ID host) ""); [contradiction|].
    rewrite Hmem. reflexivity.
Qed.

Lemma AddHost_then_GetHost_witness :
  (Store.GetHost
     (fst (Store.AddHost Store.readOnly
             (Store.NewFileStore Store.readOnly "/home/admin/.sshm.json")
             Sample.admin "u-1")) "h1" = Ok Sample.admin /\
   snd (Store.AddHost Store.readOnly
          (Store.NewFileStore Store.readOnly "/home/admin/.sshm.json")
          Sample.admin "u-1")
   = Some (wrapError "failed to write store"
             (errorString "read-only file system"))) /\
  Store.AddHost Store.blank
    (fst (Store.AddHost Store.blank
            (Store.NewFileStore Store.blank "/home/admin/.sshm.json")
            Sample.admin "u-1")) Sample.adminNoPort "u-2"
  = (fst (Store.AddHost Store.blank
            (Store.NewFileStore Store.blank "/home/admin/.sshm.json")
            Sample.admin "u-1"), Some Store.ErrHostExists).
Proof.
  split.
  - destruct (proj1 (AddHost_then_GetHost Store.readOnly
                       (Store.NewFileStore Store.readOnly
                          "/home/admin/.sshm.json") Sample.admin "u-1"))
      as (Hget & _ & _ & Hsave); [discriminate | reflexivity|].
    split; [exact Hget|]. rewrite Hsave. reflexivity.
  - apply (proj2 (proj2 (AddHost_then_GetHost Store.blank
                           (fst (Store.AddHost Store.blank
                                   (Store.NewFileStore Store.blank
                                      "/home/admin/.sshm.json")
                                   Sample.admin "u-1"))
                           Sample.adminNoPort "u-2")));
      [discriminate | reflexivity].
Defined.

(** X21. Deleting a host. For an identifier in the store, [GetHost]
    fails afterwards with "host not found", the other identifiers answer
    as before and the count drops by one, even when the write to the file
    fails. For an identifier not in the store, the call fails with "host
    not found" and the store stays as it was. *)
Theorem DeleteHost_then_GetHost (d : Store.Disk) (s : Store.FileStore)
    (id : string) :
  (HostMap.mem id (Store.hosts s) = true ->
   Store.GetHost (fst (Store.DeleteHost d s id)) id
   = Err Store.ErrHostNotFound /\
   (forall id', id' <> id ->
      Store.GetHost (fst (Store.DeleteHost d s id)) id' = Store.GetHost s id')
   /\
   S (Store.Count (fst (Store.DeleteHost d s id))) = Store.Count s /\
   snd (Store.DeleteHost d s id)
   = Store.save d (fst (Store.DeleteHost d s id))) /\
  (HostMap.mem id (Store.hosts s) = false ->
   Store.DeleteHost d s id = (s, Some Store.ErrHostNotFound)).
Proof.
  unfold Store.DeleteHost, Store.GetHost, Store.Count.
  split; intros Hmem; rewrite Hmem; [|reflexivity].
  cbn [negb fst snd Store.hosts].
  split; [now rewrite find_remove, String.eqb_refl|].
  split; [|split; [now apply cardinal_remove_present | reflexivity]].
  intros id' Hne. rewrite find_remove.
  destruct (String.eqb_spec id id'); [now elim Hne | reflexivity].
Qed.

Lemma DeleteHost_then_GetHost_witness :
  Store.GetHost
    (fst (Store.DeleteHost Store.readOnly
            (fst (Store.AddHost Store.blank
                    (Store.NewFileStore Store.blank "/home/admin/.sshm.json")
                    Sample.admin "u-1")) "h1")) "h1"
  = Err Store.ErrHostNotFound /\
  Store.DeleteHost Store.blank
    (Store.NewFileStore Store.blank "/home/admin/.sshm.json") "h1"
  = (Store.NewFileStore Store.blank "/home/admin/.sshm.json",
     Some Store.ErrHostNotFound).
Proof.
  split.
  - apply (proj1 (DeleteHost_then_GetHost Store.readOnly
                    (fst (Store.AddHost Store.blank
                            (Store.NewFileStore Store.blank
                               "/home/admin/.sshm.json")
                            Sample.admin "u-1")) "h1")).
    reflexivity.
  - apply (proj2 (DeleteHost_then_GetHost Store.blank
                    (Store.NewFileStore Store.blank "/home/admin/.sshm.json")
                    "h1")).
    reflexivity.
Defined.

(** X22. Updating a host. [UpdateHost] never adds: without identifier it
    fails with "host ID is required for update", for an identifier not in
    the store with "host not found", and in both cases the store stays as
    it was. For an identifier in the store, the host given takes the
    place of the old one, the other identifiers answer as before and the
    count is the same. *)
Theorem UpdateHost_replaces (d : Store.Disk) (s : Store.FileStore)
    (host : Host) :
  (ID host = "" ->
   Store.UpdateHost d s host
   = (s, Some (errorString "host ID is required for update"))) /\
  (ID host <> "" ->
   HostMap.mem (ID host) (Store.hosts s) = false ->
   Store.UpdateHost d s host = (s, Some Store.ErrHostNotFound)) /\
  (ID host <> "" ->
   HostMap.mem (ID host) (Store.hosts s) = true ->
   Store.GetHost (fst (Store.UpdateHost d s host)) (ID host) = Ok host /\
   (forall id, id <> ID host ->
      Store.GetHost (fst (Store.UpdateHost d s host)) id = Store.GetHost s id)
   /\
   Store.Count (fst (Store.UpdateHost d s host)) = Store.Count s /\
   snd (Store.UpdateHost d s host)
   = Store.save d (fst (Store.UpdateHost d s host))).
Proof.
  unfold Store.UpdateHost, Store.GetHost, Store.Count.
  split; [|split].
  - intros ->. reflexivity.
  - intros Hid Hmem.
    destruct (String.eqb_spec (ID host) ""); [contradiction|].
    rewrite Hmem. reflexivity.
  - intros Hid Hmem.
    destruct (String.eqb_spec (ID host) ""); [contradiction|].
    rewrite Hmem. cbn [negb fst snd Store.hosts].
    split; [now rewrite find_add, String.eqb_refl|].
    split; [|split; [now apply cardinal_add_present | reflexivity]].
    intros id Hne. rewrite find_add.
    destruct (String.eqb_spec (ID host) id); [now elim Hne | reflexivity].
Qed.

Lemma UpdateHost_replaces_witness :
  Store.UpdateHost Store.blank
    (Store.NewFileStore Store.blank "/home/admin/.sshm.json")
    (mkHost "" "production" "203.0.113.5" 22 "admin" "" "" [])
  = (Store.NewFileStore Store.blank "/home/admin/.sshm.json",
     Some (errorString "host ID is required for update")) /\
  Store.UpdateHost Store.blank
    (Store.NewFileStore Store.blank "/home/admin/.sshm.json") Sample.admin
  = (Store.NewFileStore Store.blank "/home/admin/.sshm.json",
     Some Store.ErrHostNotFound) /\
  Store.GetHost
    (fst (Store.UpdateHost Store.blank
            (fst (Store.AddHost Store.blank
                    (Store.NewFileStore Store.blank "/home/admin/.sshm.json")
                    Sample.admin "u-1")) Sample.adminNoPort)) "h1"
  = Ok Sample.adminNoPort.
Proof.
  split; [|split].
  - apply (proj1 (UpdateHost_replaces Store.blank
                    (Store.NewFileStore Store.blank "/home/admin/.sshm.json")
                    (mkHost "" "production" "203.0.113.5" 22 "admin" "" ""
                       []))).
    reflexivity.
  - apply (proj1 (proj2 (UpdateHost_replaces Store.blank
                    (Store.NewFileStore Store.blank "/home/admin/.sshm.json")
                    Sample.admin))); [discriminate | reflexivity].
  - apply (proj2 (proj2 (UpdateHost_replaces Store.blank
                    (fst (Store.AddHost Store.blank
                            (Store.NewFileStore Store.blank
                               "/home/admin/.sshm.json")
                            Sample.admin "u-1")) Sample.adminNoPort)));
      [discriminate | reflexivity].
Defined.

(** X23. Opening a store never fails. When the file does not exist,
    cannot be read or does not parse, [NewFileStore] gives an empty
    store and tells nothing. When the file parses to a list of hosts,
    the store answers, for each identifier, with the last host of the
    list that carries it, and holds at most as many hosts as the list. *)
Theorem NewFileStore_from_file (d : Store.Disk) (path : string) :
  Store.path (Store.NewFileStore d path) = path /\
  ((Store.os_ReadFile d path = Store.NotExist \/
    (exists e, Store.os_ReadFile d path = Store.ReadError e) \/
    (exists data e, Store.os_ReadFile d path = Store.Content data /\
                    Store.json_Unmarshal d data = Err e)) ->
   Store.Count (Store.NewFileStore d path) = 0%nat /\
   forall id,
     Store.GetHost (Store.NewFileStore d path) id = Err Store.ErrHostNotFound)
  /\
  (forall data hostList,
      Store.os_ReadFile d path = Store.Content data ->
      Store.json_Unmarshal d data = Ok hostList ->
      (forall id,
          Store.GetHost (Store.NewFileStore d path) id =
          match find (fun host => String.eqb (ID host) id) (rev hostList) with
          | Some host => Ok host
          | None => Err Store.ErrHostNotFound
          end) /\
      (Store.Count (Store.NewFileStore d path) <= List.length hostList)%nat).
Proof.
  unfold Store.NewFileStore, Store.load, Store.GetHost, Store.Count.
  cbn [Store.path].
  assert (Hempty : HostMap.cardinal (HostMap.empty Host) = 0%nat /\
                   forall id,
                     match HostMap.find id (HostMap.empty Host) with
                     | Some host => Ok host
                     | None => Err Store.ErrHostNotFound
                     end = Err Store.ErrHostNotFound).
  { split; [reflexivity|]. intros id.
    now rewrite HostMapFacts.empty_o. }
  split; [|split].
  - destruct (Store.os_ReadFile d path) as [|e|data]; try reflexivity.
    destruct (Store.json_Unmarshal d data); reflexivity.
  - intros [H|[(e & H)|(data & e & H & Hj)]]; rewrite H; try exact Hempty.
    rewrite Hj. exact Hempty.
  - intros data hostList H Hj. rewrite H, Hj. cbn [fst Store.hosts]. split.
    + intros id. rewrite find_loaded, HostMapFacts.empty_o.
      destruct (find _ (rev hostList)); reflexivity.
    + pose proof (cardinal_loaded hostList (HostMap.empty Host)) as Hc.
      change (HostMap.cardinal (HostMap.empty Host)) with 0%nat in Hc.
      exact Hc.
Qed.

Lemma NewFileStore_from_file_witness :
  (Store.Count (Store.NewFileStore Store.blank "/home/admin/.sshm.json")
   = 0%nat /\
   forall id,
     Store.GetHost (Store.NewFileStore Store.blank "/home/admin/.sshm.json") id
     = Err Store.ErrHostNotFound) /\
  ((forall id,
       Store.GetHost
         (Store.NewFileStore
            (Store.mkDisk (fun _ => Store.Content "[..]")
               (fun _ => Ok [Sample.admin; Sample.adminNoPort])
               (fun _ => Ok "[..]") (fun _ _ => None))
            "/home/admin/.sshm.json") id =
       match find (fun host => String.eqb (ID host) id)
               (rev [Sample.admin; Sample.adminNoPort]) with
       | Some host => Ok host
       | None => Err Store.ErrHostNotFound
       end) /\
   (Store.Count
      (Store.NewFileStore
         (Store.mkDisk (fun _ => Store.Content "[..]")
            (fun _ => Ok [Sample.admin; Sample.adminNoPort])
            (fun _ => Ok "[..]") (fun _ _ => None))
         "/home/admin/.sshm.json")
    <= List.length [Sample.admin; Sample.adminNoPort])%nat).
Proof.
  split.
  - apply (proj1 (proj2 (NewFileStore_from_file Store.blank
                           "/home/admin/.sshm.json"))).
    left. reflexivity.
  - apply (proj2 (proj2 (NewFileStore_from_file
                           (Store.mkDisk (fun _ => Store.Content "[..]")
                              (fun _ => Ok [Sample.admin; Sample.adminNoPort])
                              (fun _ => Ok "[..]") (fun _ _ => None))
                           "/home/admin/.sshm.json")) "[..]");
      reflexivity.
Defined.

Lemma elements_In (m : HostMap.t Host) (id : string) (host : Host) :
  In (id, host) (HostMap.elements m) <-> HostMap.find id m = Some host.
Proof.
  rewrite <- HostMapFacts.find_mapsto_iff, HostMapFacts.elements_mapsto_iff.
  rewrite InA_alt. split.
  - intros H. exists (id, host). split; [split; reflexivity | exact H].
  - intros ([id' host'] & [Hk He] & Hin). cbn in Hk, He. now subst.
Qed.

(** X24. Listing the store. [ListHosts] gives as many hosts as [Count]
    says; a host is in the list exactly when [GetHost] returns it for some
    identifier; and when every host sits under its own identifier, no two
    hosts of the list carry the same identifier. *)
Theorem ListHosts_is_the_store (s : Store.FileStore) :
  List.length (Store.ListHosts s) = Store.Count s /\
  (forall host,
      In host (Store.ListHosts s) <-> exists id, Store.GetHost s id = Ok host)
  /\
  (Store.keyed_by_ID s -> NoDup (map ID (Store.ListHosts s))).
Proof.
  unfold Store.ListHosts, Store.Count, Store.GetHost.
  split; [|split].
  - rewrite length_map. symmetry. apply HostMap.cardinal_1.
  - intros host. rewrite in_map_iff. split.
    + intros ([id h] & Hh & Hin). cbn in Hh. subst h.
      exists id. apply elements_In in Hin. now rewrite Hin.
    + intros (id & H).
      destruct (HostMap.find id (Store.hosts s)) as [h|] eqn:Hf;
        [|discriminate].
      injection H as ->. exists (id, host). split; [reflexivity|].
      now apply elements_In.
  - intros Hkeyed. rewrite map_map.
    rewrite map_ext_in with (g := fst).
    2: { intros [id h] Hin. cbn [fst snd].
         apply Hkeyed. now apply elements_In. }
    pose proof (HostMap.elements_3w (Store.hosts s)) as Hnd.
    induction Hnd as [|[id h] l Hnot Hnd IH]; cbn; constructor.
    + intros Hin. apply Hnot. apply in_map_iff in Hin.
      destruct Hin as ([id' h'] & Hid & Hin). cbn in Hid. subst id'.
      apply InA_alt. exists (id, h'). split; [reflexivity | exact Hin].
    + exact IH.
Qed.

Lemma ListHosts_is_the_store_witness :
  NoDup (map ID
           (Store.ListHosts
              (fst (Store.AddHost Store.blank
                      (Store.NewFileStore Store.blank "/home/admin/.sshm.json")
                      Sample.admin "u-1")))).
Proof.
  apply (proj2 (proj2 (ListHosts_is_the_store
                         (fst (Store.AddHost Store.blank
                                 (Store.NewFileStore Store.blank
                                    "/home/admin/.sshm.json")
                                 Sample.admin "u-1"))))).
  intros id host. unfold Store.AddHost, Store.NewFileStore, Store.load.
  cbn [fst Store.hosts Store.path Store.blank Store.os_ReadFile ID
         Sample.admin String.eqb Ascii.eqb Bool.eqb].
  change (HostMap.mem "h1" (HostMap.empty Host)) with false.
  cbn [fst Store.hosts].
  rewrite find_add, HostMapFacts.empty_o.
  destruct (String.eqb_spec "h1" id) as [<-|_]; [|discriminate].
  intros H. injection H as <-. reflexivity.
Defined.

(** * The host list *)

Section ListingFacts.

Import Listing.

Variable strings_ToLower : string -> string.

Lemma at_index_in_range (l : list Host) (i : Z) :
  (0 <= i < len l)%Z -> exists h, at_index l i = Some h /\ In h l.
Proof.
  unfold at_index, len. intros [H0 Hlt].
  destruct (Z.ltb_spec i 0); [lia|].
  destruct (nth_error l (Z.to_nat i)) as [h|] eqn:Hn.
  - exists h. split; [reflexivity|]. now apply nth_error_In in Hn.
  - apply nth_error_None in Hn. lia.
Qed.

Lemma updateFiltered_fields (v : ListView) :
  hosts (updateFiltered strings_ToLower v) = hosts v /\
  cursor (updateFiltered strings_ToLower v) = cursor v /\
  filtering (updateFiltered strings_ToLower v) = filtering v /\
  filterText (updateFiltered strings_ToLower v) = filterText v /\
  incl (filtered (updateFiltered strings_ToLower v)) (hosts v) /\
  (filterText v = "" -> filtered (updateFiltered strings_ToLower v) = hosts v).
Proof.
  unfold updateFiltered.
  destruct (String.eqb_spec (filterText v) "") as [He|Hne]; cbn.
  - repeat split; try reflexivity. apply incl_refl.
  - repeat split; try reflexivity.
    + apply incl_filter.
    + intros H. now elim Hne.
Qed.

Lemma cursor_zero_in_bounds (v : ListView) :
  cursor_in_bounds (with_cursor v 0).
Proof. unfold cursor_in_bounds. cbn. lia. Qed.

(** In filter mode every key leaves the cursor in bounds. *)
Lemma handleKey_filtering_bounds (v : ListView) (key : string) :
  filtering v = true ->
  cursor_in_bounds v ->
  exists v', handleKey strings_ToLower v key = Done v' None None /\
             cursor_in_bounds v'.
Proof.
  intros Hf Hb. unfold handleKey. rewrite Hf.
  destruct (String.eqb key "esc");
    [eexists; split; [reflexivity | apply cursor_zero_in_bounds]|].
  destruct (String.eqb key "enter");
    [eexists; split; [reflexivity | exact Hb]|].
  destruct (String.eqb key "backspace").
  - destruct (0 <? String.length (filterText v))%nat;
      [|eexists; split; [reflexivity | exact Hb]].
    match goal with
    | |- context [updateFiltered _ ?u] =>
        pose proof (updateFiltered_fields u) as (_ & Hc & _);
        set (v1 := updateFiltered strings_ToLower u) in *
    end.
    cbn [cursor] in Hc.
    destruct (Z.leb_spec (len (filtered v1)) (cursor v1)).
    + eexists. split; [reflexivity|]. unfold cursor_in_bounds. cbn. lia.
    + eexists. split; [reflexivity|]. unfold cursor_in_bounds in *. lia.
  - destruct (String.length key =? 1)%nat;
      eexists; (split; [reflexivity|]);
      [apply cursor_zero_in_bounds | exact Hb].
Qed.

(** X25. The cursor of the host list. With the cursor inside the list
    shown (or 0 for an empty list), every key leaves it there and no key
    makes the view panic, with one exception: outside filter mode,
    pagedown on an empty list sets the cursor to -1. *)
Theorem ListView_cursor_bounds (v : Listing.ListView) (key : string) :
  cursor_in_bounds v ->
  (~ (filtering v = false /\ key = "pagedown" /\ filtered v = []) ->
   exists v' cmd printed,
     handleKey strings_ToLower v key = Done v' cmd printed /\
     cursor_in_bounds v') /\
  (filtering v = false -> key = "pagedown" -> filtered v = [] ->
   handleKey strings_ToLower v key = Done (with_cursor v (-1)) None None).
Proof.
  intros Hb. split.
  - intros Hex. destruct (filtering v) eqn:Hf.
    { destruct (@handleKey_filtering_bounds v key Hf Hb) as (v' & -> & Hb').
      exists v', None, None. split; [reflexivity | exact Hb']. }
    unfold handleKey. rewrite Hf. unfold cursor_in_bounds in Hb.
    destruct (String.eqb key "up" || String.eqb key "k").
    { destruct (Z.ltb_spec 0 (cursor v)); do 3 eexists;
        (split; [reflexivity|]); unfold cursor_in_bounds; cbn; lia. }
    destruct (String.eqb key "down" || String.eqb key "j").
    { destruct (Z.ltb_spec (cursor v) (len (filtered v) - 1)); do 3 eexists;
        (split; [reflexivity|]); unfold cursor_in_bounds; cbn; lia. }
    destruct (String.eqb key "home" || String.eqb key "g").
    { do 3 eexists. split; [reflexivity | apply cursor_zero_in_bounds]. }
    destruct (String.eqb key "end" || String.eqb key "G").
    { do 3 eexists. split; [reflexivity|]. unfold cursor_in_bounds. cbn. lia. }
    destruct (String.eqb key "pageup").
    { do 3 eexists. split; [reflexivity|]. unfold cursor_in_bounds. cbn. lia. }
    destruct (String.eqb_spec key "pagedown") as [Hk|_].
    { do 3 eexists. split; [reflexivity|]. unfold cursor_in_bounds. cbn.
      destruct (filtered v) as [|h l] eqn:Hl; [now elim Hex|].
      unfold len in *. cbn [List.length] in *. lia. }
    destruct (String.eqb key "/").
    { do 3 eexists. split; [reflexivity | exact Hb]. }
    destruct (String.eqb key "enter").
    { destruct ((0 <? len (filtered v))%Z && (cursor v <? len (filtered v))%Z)
        eqn:Hg; [|do 3 eexists; split; [reflexivity | exact Hb]].
      apply andb_true_iff in Hg. destruct Hg as [_ Hlt].
      apply Z.ltb_lt in Hlt.
      destruct (@at_index_in_range (filtered v) (cursor v)) as (h & -> & _);
        [lia|].
      do 3 eexists. split; [reflexivity | exact Hb]. }
    destruct (String.eqb key "q" || String.eqb key "ctrl+c");
      do 3 eexists; (split; [reflexivity | exact Hb]).
  - intros Hf -> Hl. unfold handleKey. rewrite Hf, Hl.
    unfold cursor_in_bounds in Hb. rewrite Hl in Hb. cbn in Hb.
    assert (cursor v = 0%Z) as Hc by lia.
    cbn. rewrite Hc. reflexivity.
Qed.


(** X27. What the list shows. No key touches the hosts of the view,
    and the list shown stays a part of them: every host shown is one of
    the hosts. Leaving filter mode with esc clears the filter text, shows
    all the hosts again and puts the cursor on the first. *)
Theorem ListView_shows_its_hosts (v v' : Listing.ListView) (key : string)
    (cmd : option TUI.Cmd) (printed : option string) :
  handleKey strings_ToLower v key = Done v' cmd printed ->
  hosts v' = hosts v /\
  (incl (filtered v) (hosts v) -> incl (filtered v') (hosts v')) /\
  (filtering v = true -> key = "esc" ->
   filtered v' = hosts v /\ filterText v' = "" /\ cursor v' = 0%Z /\
   filtering v' = false).
Proof.
  unfold handleKey.
  assert (Hsame : forall u c p,
             Done u c p = Done v' cmd printed ->
             hosts u = hosts v -> filtered u = filtered v ->
             hosts v' = hosts v /\
             (incl (filtered v) (hosts v) -> incl (filtered v') (hosts v'))).
  { intros u c p H Hh Hfl. injection H as <- _ _.
    rewrite Hh, Hfl. split; [reflexivity | tauto]. }
  assert (Hupd : forall u c p,
             Done (with_cursor (updateFiltered strings_ToLower u) c) None p
             = Done v' cmd printed ->
             hosts u = hosts v ->
             hosts v' = hosts v /\
             (incl (filtered v) (hosts v) -> incl (filtered v') (hosts v'))).
  { intros u c p H Hh. injection H as <- _ _.
    pose proof (updateFiltered_fields u) as (Hh' & _ & _ & _ & Hincl & _).
    cbn [hosts filtered with_cursor]. rewrite Hh', Hh.
    split; [reflexivity|]. intros _. rewrite <- Hh. exact Hincl. }
  destruct (filtering v) eqn:Hf.
  - destruct (String.eqb_spec key "esc") as [->|Hesc].
    + intros H. destruct (Hupd _ _ _ H eq_refl) as [Hh Hi].
      split; [exact Hh|]. split; [exact Hi|]. intros _ _.
      injection H as <- _ _.
      match goal with
      | |- context [updateFiltered _ ?u] =>
          pose proof (updateFiltered_fields u)
            as (_ & _ & Hfg & Hft & _ & Hall)
      end.
      cbn [filtered filterText cursor filtering with_cursor hosts] in *.
      split; [now apply Hall|]. split; [exact Hft|].
      split; [reflexivity | exact Hfg].
    + intros H.
      assert (Hgoal : hosts v' = hosts v /\
                      (incl (filtered v) (hosts v) ->
                       incl (filtered v') (hosts v'))).
      { revert H.
        destruct (String.eqb key "enter");
          [intros H; now apply (Hsame _ _ _ H)|].
        destruct (String.eqb key "backspace").
        - destruct (0 <? String.length (filterText v))%nat;
            [|intros H; now apply (Hsame _ _ _ H)].
          match goal with
          | |- context [updateFiltered _ ?u] =>
              pose proof (updateFiltered_fields u)
                as (Hh' & _ & _ & _ & Hincl & _);
              set (v1 := updateFiltered strings_ToLower u) in *
          end.
          cbn [hosts] in Hh', Hincl.
          destruct (len (filtered v1) <=? cursor v1)%Z;
            intros H; injection H as <- _ _;
            cbn [hosts filtered with_cursor]; rewrite Hh';
            (split; [reflexivity | intros _; exact Hincl]).
        - destruct (String.length key =? 1)%nat;
            [intros H; now apply (Hupd _ _ _ H)
            |intros H; now apply (Hsame _ _ _ H)]. }
      destruct Hgoal as [Hh Hi]. split; [exact Hh|]. split; [exact Hi|].
      intros _ Hk. now elim Hesc.
  - intros H.
    assert (Hgoal : hosts v' = hosts v /\
                    (incl (filtered v) (hosts v) ->
                     incl (filtered v') (hosts v'))).
    { revert H.
      repeat match goal with
             | |- context [if ?b then _ else _] =>
                 destruct b; try (intros H; now apply (Hsame _ _ _ H))
             end.
      destruct (at_index (filtered v) (cursor v));
        [intros H; now apply (Hsame _ _ _ H) | discriminate]. }
    destruct Hgoal as [Hh Hi]. split; [exact Hh|]. split; [exact Hi|].
    discriminate.
Qed.

End ListingFacts.

Lemma ListView_cursor_bounds_witness :
  (exists v' cmd printed,
      Listing.handleKey (fun s => s) (Listing.NewListView [Sample.admin])
        "pagedown" = Listing.Done v' cmd printed /\
      Listing.cursor_in_bounds v') /\
  Listing.handleKey (fun s => s) (Listing.NewListView []) "pagedown"
  = Listing.Done (Listing.with_cursor (Listing.NewListView []) (-1)) None None.
Proof.
  assert (Hb : forall l, Listing.cursor_in_bounds (Listing.NewListView l))
    by (intros l; unfold Listing.cursor_in_bounds; cbn; lia).
  split.
  - apply (proj1 (@ListView_cursor_bounds (fun s => s)
                    (Listing.NewListView [Sample.admin]) "pagedown"
                    (Hb [Sample.admin]))).
    intros (_ & _ & H). discriminate H.
  - apply (proj2 (@ListView_cursor_bounds (fun s => s)
                    (Listing.NewListView []) "pagedown" (Hb [])));
      reflexivity.
Defined.


Lemma ListView_shows_its_hosts_witness :
  Listing.hosts
    (Listing.mkListView [Sample.admin] [Sample.admin] 0 "" 0 false 0 0)
  = Listing.hosts
      (Listing.mkListView [Sample.admin] [] 0 "zz" 0 true 0 0) /\
  (incl (Listing.filtered
           (Listing.mkListView [Sample.admin] [] 0 "zz" 0 true 0 0))
        (Listing.hosts
           (Listing.mkListView [Sample.admin] [] 0 "zz" 0 true 0 0)) ->
   incl (Listing.filtered
           (Listing.mkListView [Sample.admin] [Sample.admin] 0 "" 0 false 0 0))
        (Listing.hosts
           (Listing.mkListView [Sample.admin] [Sample.admin] 0 "" 0 false 0 0)))
  /\
  (Listing.filtering
     (Listing.mkListView [Sample.admin] [] 0 "zz" 0 true 0 0) = true ->
   "esc" = "esc" ->
   Listing.filtered
     (Listing.mkListView [Sample.admin] [Sample.admin] 0 "" 0 false 0 0)
   = Listing.hosts (Listing.mkListView [Sample.admin] [] 0 "zz" 0 true 0 0) /\
   Listing.filterText
     (Listing.mkListView [Sample.admin] [Sample.admin] 0 "" 0 false 0 0) = "" /\
   Listing.cursor
     (Listing.mkListView [Sample.admin] [Sample.admin] 0 "" 0 false 0 0) = 0%Z
   /\
   Listing.filtering
     (Listing.mkListView [Sample.admin] [Sample.admin] 0 "" 0 false 0 0)
   = false).
Proof.
  apply (@ListView_shows_its_hosts (fun s => s)
           (Listing.mkListView [Sample.admin] [] 0 "zz" 0 true 0 0)
           (Listing.mkListView [Sample.admin] [Sample.admin] 0 "" 0 false 0 0)
           "esc" None None).
  reflexivity.
Defined.
